(** * Experiment synchronisation, job construction and parameter generation

    A shallow embedding of the Go sources of the experiment controller:

    - [validation.CheckDefinition]   (definition compatibility check),
    - [server.FromCluster], [server.ToCluster], [server.ToClusterTrial],
      [server.FromClusterTrial]      (cluster <-> service conversions),
    - [generation.Parameters]        (replica selector parameter),
    - [trial.NewJob], [trial.addDefaultContainer], [trial.patchSelf]
                                     (trial job builder),
    - [selector.Default], [stopping.StopExperiment] and the defaulting
      functions of [appsv1alpha1]    (defaults and stopping).

    Go values are modelled as follows: [int], [int32] and [int64] are [Z]
    (conversions to [int32] wrap explicitly), [string] and [[]byte] are
    [string], a slice is a [list], a nil-able pointer is an [option], a
    [map[string]string] is a [gmap string string] (wrapped in [option]
    where the code observes nil-ness), a Go [error] result is [result],
    and a run-time panic is an explicit [Panics] outcome. *)

From Stdlib Require Import ZArith String Ascii List Bool Lia.
From stdpp Require Import base option list gmap strings fin_maps fin_sets.

Set Warnings "-clear-no-such-hyp".

Local Open Scope string_scope.
Local Open Scope list_scope.

(** ** Results of fallible Go functions *)

Definition error := string.

Inductive result (A : Type) : Type :=
| Ok (a : A)
| Err (e : error).
Arguments Ok {A} a.
Arguments Err {A} e.

Definition isOk {A} (r : result A) : bool :=
  match r with Ok _ => true | Err _ => false end.

(** A Go function without an error result can still fault at run time. *)
Inductive outcome (A : Type) : Type :=
| Returns (a : A)
| Panics (msg : string).
Arguments Returns {A} a.
Arguments Panics {A} msg.

(** ** Machine integers *)

Module gomath.
Local Open Scope Z_scope.

Definition MaxInt32 : Z := 2147483647.
Definition MinInt32 : Z := -2147483648.
Definition MaxInt64 : Z := 9223372036854775807.

(** The Go conversion [int32(v)] of a wider integer: two's complement
    truncation to 32 bits. *)
Definition int32 (v : Z) : Z := (v + 2 ^ 31) mod 2 ^ 32 - 2 ^ 31.

(** The result of a 64-bit signed operation whose exact value is [v]. *)
Definition int64 (v : Z) : Z := (v + 2 ^ 63) mod 2 ^ 64 - 2 ^ 63.
End gomath.

(** ** k8s.io/apimachinery/pkg/util/intstr *)

Module intstr.
Inductive Kind := Int | String.

Record IntOrString := {
  Type_ : Kind;
  IntVal : Z;        (* int32 *)
  StrVal : string
}.

(** [FromInt] takes a Go [int] and stores [int32(val)]. *)
Definition FromInt (val : Z) : IntOrString :=
  {| Type_ := Int; IntVal := gomath.int32 val; StrVal := "" |}.

Definition FromString (val : string) : IntOrString :=
  {| Type_ := String; IntVal := 0%Z; StrVal := val |}.
End intstr.

(** ** optimize-go numstr *)

Module numstr.
(** [NumVal] is the 64-bit integer the numeric form denotes, that is the
    value [Int64Value] returns. *)
Record NumberOrString := {
  IsString : bool;
  NumVal : Z;
  StrVal : string
}.

Definition FromInt64 (i : Z) : NumberOrString :=
  {| IsString := false; NumVal := i; StrVal := "" |}.

Definition FromString (s : string) : NumberOrString :=
  {| IsString := true; NumVal := 0%Z; StrVal := s |}.

Definition Int64Value (v : NumberOrString) : Z := NumVal v.
End numstr.

(** ** Kubernetes object model (the fields the code reads or writes) *)

Module metav1.
Record ObjectMeta := {
  Name : string;
  GenerateName : string;
  Namespace : string;
  Labels : option (gmap string string);
  Annotations : option (gmap string string);
  Finalizers : list string
}.

Definition empty : ObjectMeta :=
  {| Name := ""; GenerateName := ""; Namespace := ""; Labels := None;
     Annotations := None; Finalizers := [] |}.

Definition setName (n : string) (m : ObjectMeta) : ObjectMeta :=
  {| Name := n; GenerateName := GenerateName m; Namespace := Namespace m;
     Labels := Labels m; Annotations := Annotations m;
     Finalizers := Finalizers m |}.

Definition setNamespace (n : string) (m : ObjectMeta) : ObjectMeta :=
  {| Name := Name m; GenerateName := GenerateName m; Namespace := n;
     Labels := Labels m; Annotations := Annotations m;
     Finalizers := Finalizers m |}.

Definition setLabels (l : option (gmap string string)) (m : ObjectMeta)
  : ObjectMeta :=
  {| Name := Name m; GenerateName := GenerateName m;
     Namespace := Namespace m; Labels := l; Annotations := Annotations m;
     Finalizers := Finalizers m |}.

Definition setAnnotations (a : option (gmap string string))
  (m : ObjectMeta) : ObjectMeta :=
  {| Name := Name m; GenerateName := GenerateName m;
     Namespace := Namespace m; Labels := Labels m; Annotations := a;
     Finalizers := Finalizers m |}.

Definition setFinalizers (f : list string) (m : ObjectMeta) : ObjectMeta :=
  {| Name := Name m; GenerateName := GenerateName m;
     Namespace := Namespace m; Labels := Labels m;
     Annotations := Annotations m; Finalizers := f |}.

(** Reading a Go map, nil or not, yields the zero value on a miss. *)
Definition get (m : option (gmap string string)) (k : string) : string :=
  match m with
  | Some m' => default "" (m' !! k)
  | None => ""
  end.

(** Nanoseconds, as [time.Duration]. *)
Definition Duration := Z.
Definition Minute : Duration := 60000000000%Z.

(** Instants are kept abstract as a number. *)
Definition Time := Z.
End metav1.

Module corev1.
Record ObjectReference := {
  Kind : string;
  Namespace : string;
  Name : string;
  APIVersion : string
}.

Record EnvVar := {
  EnvVar_Name : string;
  EnvVar_Value : string
}.

Record Container := {
  Container_Name : string;
  Image : string;
  Command : list string;
  Args : list string;
  Env : list EnvVar
}.

Definition setEnv (e : list EnvVar) (c : Container) : Container :=
  {| Container_Name := Container_Name c; Image := Image c;
     Command := Command c; Args := Args c; Env := e |}.

Record PodSpec := {
  RestartPolicy : string;
  Containers : list Container
}.

Record PodTemplateSpec := {
  Template_ObjectMeta : metav1.ObjectMeta;
  Template_Spec : PodSpec
}.

Definition RestartPolicyNever : string := "Never".
Definition ConditionTrue : string := "True".
End corev1.

Module batchv1.
Record JobSpec := {
  BackoffLimit : option Z;     (* *int32 *)
  Template : corev1.PodTemplateSpec
}.

Record Job := {
  ObjectMeta : metav1.ObjectMeta;
  Spec : JobSpec
}.

(** [batchv1beta1.JobTemplateSpec] has the same two parts. *)
Definition JobTemplateSpec := Job.

(** The zero value [batchv1.Job{}]. *)
Definition zero : Job :=
  {| ObjectMeta := metav1.empty;
     Spec := {| BackoffLimit := None;
                Template := {| corev1.Template_ObjectMeta := metav1.empty;
                               corev1.Template_Spec :=
                                 {| corev1.RestartPolicy := "";
                                    corev1.Containers := [] |} |} |} |}.
End batchv1.

Module types.
Definition StrategicMergePatchType : string :=
  "application/strategic-merge-patch+json".
End types.

(** ** strconv: floating point parsing

    [float64] values only travel through the code (they are parsed and
    stored), so the type and the parser are an interface. *)

Class Float64 := {
  float64 : Type;
  float64_zero : float64;
  (** [strconv.ParseFloat s 64], [None] when it returns an error. *)
  ParseFloat : string → option float64
}.

(** ** The cluster-side API (redskyv1beta1) *)

Module v1beta1.
(** Annotation, label and condition names of the API package. *)
Definition AnnotationExperimentURL := "redskyops.dev/experiment-url".
Definition AnnotationNextTrialURL := "redskyops.dev/next-trial-url".
Definition AnnotationReportTrialURL := "redskyops.dev/report-trial-url".
Definition LabelExperiment := "redskyops.dev/experiment".
Definition LabelTrial := "redskyops.dev/trial".
Definition LabelTrialRole := "redskyops.dev/trial-role".
Definition TrialFailed := "redskyops.dev/trial-failed".

(** Go's [Parameter]; the name is a reserved word here. *)
Record Param := {
  Parameter_Name : string;
  Min : Z;                               (* int32 *)
  Max : Z;                               (* int32 *)
  Values : list string;
  Baseline : option intstr.IntOrString
}.

Record Metric := {
  Metric_Name : string;
  Minimize : bool;
  Optimize : option bool
}.

Record Optimization := {
  Optimization_Name : string;
  Optimization_Value : string
}.

(** A [resource.Quantity], through the two observations the code makes. *)
Record Quantity := {
  MilliValue : Z;
  IsZero : bool
}.

Record OrderConstraint := {
  LowerParameter : string;
  UpperParameter : string
}.

Record SumConstraintParameter := {
  SumConstraintParameter_Name : string;
  Weight : Quantity
}.

Record SumConstraint := {
  Bound : Quantity;
  IsUpperBound : bool;
  SumConstraint_Parameters : list SumConstraintParameter
}.

Record Constraint := {
  Constraint_Name : string;
  Order : option OrderConstraint;
  Sum : option SumConstraint
}.

Record ExperimentSpec := {
  Spec_Optimization : list Optimization;
  Parameters : list Param;
  Constraints : list Constraint;
  Metrics : list Metric
}.

Record Experiment := {
  Experiment_ObjectMeta : metav1.ObjectMeta;
  CreationTimestamp : metav1.Time;
  Experiment_Spec : ExperimentSpec
}.

Record Assignment := {
  Assignment_Name : string;
  Assignment_Value : intstr.IntOrString
}.

Record Value := {
  Value_Name : string;
  Value_Value : string;
  Value_Error : string
}.

Record TrialCondition := {
  Condition_Type : string;
  Condition_Status : string;
  Reason : string;
  Message : string
}.

Record PatchOperation := {
  TargetRef : corev1.ObjectReference;
  PatchType : string;
  Data : string                           (* []byte *)
}.

Record TrialSpec := {
  Assignments : list Assignment;
  Spec_Values : list Value;
  JobTemplate : option batchv1.JobTemplateSpec;
  ApproximateRuntime : option metav1.Duration;
  StartTimeOffset : option metav1.Duration
}.

Record TrialStatus := {
  Phase : string;
  Status_Assignments : string;
  Status_Values : string;
  StartTime : option metav1.Time;
  CompletionTime : option metav1.Time;
  Conditions : list TrialCondition;
  PatchOperations : list PatchOperation
}.

Record Trial := {
  Trial_ObjectMeta : metav1.ObjectMeta;
  Trial_Spec : TrialSpec;
  Trial_Status : TrialStatus
}.

Definition setAssignments (a : list Assignment) (s : TrialSpec)
  : TrialSpec :=
  {| Assignments := a; Spec_Values := Spec_Values s;
     JobTemplate := JobTemplate s;
     ApproximateRuntime := ApproximateRuntime s;
     StartTimeOffset := StartTimeOffset s |}.
End v1beta1.

(** ** The service-side API (redskyapi) *)

Module redskyapi.
Inductive ParameterType := ParameterTypeCategorical | ParameterTypeInteger.
Inductive ConstraintType := ConstraintOrder | ConstraintSum.

(** [json.Number] bounds hold the decimal rendering of an integer; the
    integer itself is kept. *)
Record Bounds := {
  Bounds_Min : Z;
  Bounds_Max : Z
}.

Record Param := {
  Parameter_Type : ParameterType;
  Parameter_Name : string;
  Parameter_Bounds : option Bounds;
  Parameter_Values : list string
}.

Record Metric := {
  Metric_Name : string;
  Minimize : bool;
  Optimize : option bool
}.

Record Optimization := {
  Optimization_Name : string;
  Optimization_Value : string
}.

Record OrderConstraint := {
  LowerParameter : string;
  UpperParameter : string
}.

(** Weights and bounds are sent as [float64(milli) / 1000]; the record
    keeps the dividend [milli], which determines the quotient. *)
Record SumConstraintParameter := {
  SumConstraintParameter_Name : string;
  Weight_milli : Z
}.

Record SumConstraint := {
  IsUpperBound : bool;
  Bound_milli : Z;
  SumConstraint_Parameters : list SumConstraintParameter
}.

Record Constraint := {
  Constraint_Name : string;
  Constraint_Type : ConstraintType;
  Constraint_Order : OrderConstraint;
  Constraint_Sum : SumConstraint
}.

Record Experiment := {
  LastModified : metav1.Time;
  SelfURL : string;
  NextTrialURL : string;
  Labels : option (gmap string string);
  Experiment_Optimization : list Optimization;
  Parameters : list Param;
  Constraints : list Constraint;
  Metrics : list Metric
}.

Record Assignment := {
  ParameterName : string;
  Assignment_Value : numstr.NumberOrString
}.

Record TrialAssignments := {
  TrialAssignments_SelfURL : string;
  TrialAssignments_Labels : gmap string string;
  Assignments : list Assignment
}.

Definition ExperimentName := string.
Definition NewExperimentName (n : string) : ExperimentName := n.

Record Value `{Float64} := {
  MetricName : string;
  Value_Value : float64;
  Value_Error : float64
}.

Record TrialValues `{Float64} := {
  StartTime : option metav1.Time;
  CompletionTime : option metav1.Time;
  Values : list Value;
  Failed : bool;
  FailureReason : string;
  FailureMessage : string
}.
End redskyapi.

(** ** internal/validation *)

Module validation.
Definition parameterError : error :=
  "server and cluster have incompatible parameter definitions".
Definition metricError : error :=
  "server and cluster have incompatible metric definitions".

(** The body shared by the two halves of [CheckDefinition]: a
    [map[string]bool] is filled with the local names, the remote names
    are deleted from it, and anything left is a mismatch. *)
Definition leftover (local remote : list string) : gmap string bool :=
  let names := foldl (λ m n, <[n := true]> m) ∅ local in
  foldl (λ m n, delete n m) names remote.

(** [None] is the nil error. *)
Definition CheckDefinition (exp : v1beta1.Experiment)
  (ee : redskyapi.Experiment) : option error :=
  let lp := v1beta1.Parameters (v1beta1.Experiment_Spec exp) in
  let rp := redskyapi.Parameters ee in
  let lm := v1beta1.Metrics (v1beta1.Experiment_Spec exp) in
  let rm := redskyapi.Metrics ee in
  if decide (length lp = length rp) then
    let parameters :=
      leftover (v1beta1.Parameter_Name <$> lp)
               (redskyapi.Parameter_Name <$> rp) in
    if decide (0 < size parameters) then Some parameterError
    else if decide (length lm = length rm) then
      let metrics :=
        leftover (v1beta1.Metric_Name <$> lm)
                 (redskyapi.Metric_Name <$> rm) in
      if decide (0 < size metrics) then Some metricError
      else None
    else Some metricError
  else Some parameterError.
End validation.

(** ** Go standard library string helpers used by the server package *)

Module gostrings.
(** [strings.TrimPrefix]. *)
Definition TrimPrefix (s pre : string) : string :=
  if String.prefix pre s
  then String.substring (String.length pre)
                        (String.length s - String.length pre) s
  else s.

Definition isSlash (c : ascii) : bool := Ascii.eqb c "/"%char.

Fixpoint dropWhile (f : ascii → bool) (l : list ascii) : list ascii :=
  match l with
  | [] => []
  | c :: l' => if f c then dropWhile f l' else l
  end.

Fixpoint takeWhile (f : ascii → bool) (l : list ascii) : list ascii :=
  match l with
  | [] => []
  | c :: l' => if f c then c :: takeWhile f l' else []
  end.

(** [path.Base]: strip trailing slashes, keep what follows the last
    slash; the empty path is ".", a path of slashes is "/". *)
Definition Base (p : string) : string :=
  if String.eqb p "" then "."
  else
    let stripped := dropWhile isSlash (rev (list_ascii_of_string p)) in
    let last := rev (takeWhile (λ c, negb (isSlash c)) stripped) in
    match last with
    | [] => "/"
    | _ => string_of_list_ascii last
    end.

Definition digitValue (c : ascii) : option Z :=
  let n := nat_of_ascii c in
  if (48 <=? n)%nat && (n <=? 57)%nat then Some (Z.of_nat (n - 48))
  else None.

Fixpoint parseDigits (acc : Z) (l : list ascii) : option Z :=
  match l with
  | [] => Some acc
  | c :: l' =>
    match digitValue c with
    | Some d => parseDigits (10 * acc + d)%Z l'
    | None => None
    end
  end.

(** [strconv.ParseInt s 10 64], [None] when it returns an error (empty
    input, a character that is not a decimal digit, or a value outside
    the 64-bit signed range). *)
Definition ParseInt (s : string) : option Z :=
  let parseUnsigned (neg : bool) (l : list ascii) : option Z :=
    match l with
    | [] => None
    | _ =>
      match parseDigits 0 l with
      | Some un =>
        if neg
        then if (un <=? 9223372036854775808)%Z then Some (- un)%Z else None
        else if (un <=? gomath.MaxInt64)%Z then Some un else None
      | None => None
      end
    end in
  match list_ascii_of_string s with
  | [] => None
  | c :: l' =>
    if Ascii.eqb c "+"%char then parseUnsigned false l'
    else if Ascii.eqb c "-"%char then parseUnsigned true l'
    else parseUnsigned false (c :: l')
  end.

Fixpoint digitsOfPos (fuel : nat) (n : Z) (acc : list ascii) : list ascii :=
  match fuel with
  | O => acc
  | S fuel' =>
    let d := ascii_of_nat (48 + Z.to_nat (n mod 10)%Z) in
    if (n <? 10)%Z then d :: acc
    else digitsOfPos fuel' (n / 10)%Z (d :: acc)
  end.

(** Decimal digits of a non-negative integer. *)
Definition decimal (n : Z) : list ascii :=
  digitsOfPos (S (Z.to_nat (Z.log2 n))) n [].

(** The verb [%03d] of [fmt.Sprintf]: at least three characters, padded
    with zeros after the sign. *)
Definition format03d (n : Z) : string :=
  let ds := decimal (Z.abs n) in
  let sign := if (n <? 0)%Z then ["-"%char] else [] in
  let width := (3 - length sign)%nat in
  string_of_list_ascii
    (sign ++ repeat "0"%char (width - length ds) ++ ds).
End gostrings.

(** ** sigs.k8s.io/controller-runtime controllerutil *)

Module controllerutil.
Fixpoint containsString (l : list string) (x : string) : bool :=
  match l with
  | [] => false
  | s :: l' => if String.eqb s x then true else containsString l' x
  end.

(** [AddFinalizer] appends the finalizer unless it is already there. *)
Definition AddFinalizer (m : metav1.ObjectMeta) (finalizer : string)
  : metav1.ObjectMeta :=
  let f := metav1.Finalizers m in
  if containsString f finalizer then m
  else metav1.setFinalizers (f ++ [finalizer]) m.
End controllerutil.

(** ** internal/server *)

Module server.
Local Open Scope list_scope.
Local Open Scope Z_scope.

(** Finalizer is used to ensure synchronization with the server. *)
Definition Finalizer : string := "serverFinalizer.redskyops.dev".

Fixpoint stringSliceContains (a : list string) (x : string) : bool :=
  match a with
  | [] => false
  | s :: a' => if String.eqb s x then true else stringSliceContains a' x
  end.

Definition baselineRangeError (name : string) : error :=
  ("baseline out of range for parameter '" ++ name ++ "'")%string.
Definition baselineCountError : error :=
  "baseline must be specified on all or none of the parameters".

(** The special case that omits a parameter client side. *)
Definition omitted (p : v1beta1.Param) : bool :=
  (v1beta1.Min p =? v1beta1.Max p)
  && (length (v1beta1.Values p) =? 0)%nat.

(** The service parameter appended for a cluster parameter. *)
Definition remoteParameter (p : v1beta1.Param) : redskyapi.Param :=
  if (0 <? length (v1beta1.Values p))%nat then
    {| redskyapi.Parameter_Type := redskyapi.ParameterTypeCategorical;
       redskyapi.Parameter_Name := v1beta1.Parameter_Name p;
       redskyapi.Parameter_Bounds := None;
       redskyapi.Parameter_Values := v1beta1.Values p |}
  else
    {| redskyapi.Parameter_Type := redskyapi.ParameterTypeInteger;
       redskyapi.Parameter_Name := v1beta1.Parameter_Name p;
       redskyapi.Parameter_Bounds :=
         Some {| redskyapi.Bounds_Min := v1beta1.Min p;
                 redskyapi.Bounds_Max := v1beta1.Max p |};
       redskyapi.Parameter_Values := [] |}.

(** The value of a present baseline, or the range error. *)
Definition baselineValue (p : v1beta1.Param) (b : intstr.IntOrString)
  : result numstr.NumberOrString :=
  match intstr.Type_ b with
  | intstr.String =>
    let vs := intstr.StrVal b in
    if negb (stringSliceContains (v1beta1.Values p) vs)
    then Err (baselineRangeError (v1beta1.Parameter_Name p))
    else Ok (numstr.FromString vs)
  | intstr.Int =>
    let vi := intstr.IntVal b in
    if (vi <? v1beta1.Min p) || (vi >? v1beta1.Max p)
    then Err (baselineRangeError (v1beta1.Parameter_Name p))
    else Ok (numstr.FromInt64 vi)
  end.

(** The loop over [in.Spec.Parameters]; the state is [out.Parameters]
    and [baseline.Assignments]. *)
Fixpoint convertParameters (ps : list v1beta1.Param)
  (outParameters : list redskyapi.Param)
  (assignments : list redskyapi.Assignment)
  : result (list redskyapi.Param * list redskyapi.Assignment) :=
  match ps with
  | [] => Ok (outParameters, assignments)
  | p :: ps' =>
    if omitted p then convertParameters ps' outParameters assignments
    else
      let outParameters' := outParameters ++ [remoteParameter p] in
      match v1beta1.Baseline p with
      | Some b =>
        match baselineValue p b with
        | Err e => Err e
        | Ok v =>
          convertParameters ps' outParameters'
            (assignments ++
               [{| redskyapi.ParameterName := v1beta1.Parameter_Name p;
                   redskyapi.Assignment_Value := v |}])
        end
      | None => convertParameters ps' outParameters' assignments
      end
  end.

Definition zeroOrder : redskyapi.OrderConstraint :=
  {| redskyapi.LowerParameter := ""; redskyapi.UpperParameter := "" |}.
Definition zeroSum : redskyapi.SumConstraint :=
  {| redskyapi.IsUpperBound := false; redskyapi.Bound_milli := 0;
     redskyapi.SumConstraint_Parameters := [] |}.

(** One iteration of the loop over [in.Spec.Constraints]. *)
Definition convertConstraint (c : v1beta1.Constraint)
  : list redskyapi.Constraint :=
  match v1beta1.Order c, v1beta1.Sum c with
  | Some o, _ =>
    [{| redskyapi.Constraint_Name := v1beta1.Constraint_Name c;
        redskyapi.Constraint_Type := redskyapi.ConstraintOrder;
        redskyapi.Constraint_Order :=
          {| redskyapi.LowerParameter := v1beta1.LowerParameter o;
             redskyapi.UpperParameter := v1beta1.UpperParameter o |};
        redskyapi.Constraint_Sum := zeroSum |}]
  | None, Some s =>
    let sc :=
      {| redskyapi.IsUpperBound := v1beta1.IsUpperBound s;
         redskyapi.Bound_milli := v1beta1.MilliValue (v1beta1.Bound s);
         redskyapi.SumConstraint_Parameters :=
           (λ p, {| redskyapi.SumConstraintParameter_Name :=
                      v1beta1.SumConstraintParameter_Name p;
                    redskyapi.Weight_milli :=
                      v1beta1.MilliValue (v1beta1.Weight p) |})
           <$> filter (λ p, v1beta1.IsZero (v1beta1.Weight p) = false)
                      (v1beta1.SumConstraint_Parameters s) |} in
    [{| redskyapi.Constraint_Name := v1beta1.Constraint_Name c;
        redskyapi.Constraint_Type := redskyapi.ConstraintSum;
        redskyapi.Constraint_Order := zeroOrder;
        redskyapi.Constraint_Sum := sc |}]
  | None, None => []
  end.

(** The labels of the experiment with the "redskyops.dev/" prefix
    trimmed from the keys; nil when there are none.  When two keys
    coincide after trimming, Go keeps whichever its map iteration
    visits last; the fold fixes one such order. *)
Definition convertLabels (l : option (gmap string string))
  : option (gmap string string) :=
  match l with
  | Some m =>
    if (0 <? size m)%nat
    then Some (map_fold
                 (λ k v (out : gmap string string),
                    <[gostrings.TrimPrefix k "redskyops.dev/" := v]> out)
                 ∅ m)
    else None
  | None => None
  end.

(** FromCluster converts cluster state to API state. *)
Definition FromCluster (exp : v1beta1.Experiment)
  : result (redskyapi.ExperimentName * redskyapi.Experiment
            * option redskyapi.TrialAssignments) :=
  let meta := v1beta1.Experiment_ObjectMeta exp in
  let spec := v1beta1.Experiment_Spec exp in
  match convertParameters (v1beta1.Parameters spec) [] [] with
  | Err e => Err e
  | Ok (parameters, assignments) =>
    let out :=
      {| redskyapi.LastModified := v1beta1.CreationTimestamp exp;
         redskyapi.SelfURL :=
           metav1.get (metav1.Annotations meta)
                      v1beta1.AnnotationExperimentURL;
         redskyapi.NextTrialURL :=
           metav1.get (metav1.Annotations meta)
                      v1beta1.AnnotationNextTrialURL;
         redskyapi.Labels := convertLabels (metav1.Labels meta);
         redskyapi.Experiment_Optimization :=
           (λ o, {| redskyapi.Optimization_Name :=
                      v1beta1.Optimization_Name o;
                    redskyapi.Optimization_Value :=
                      v1beta1.Optimization_Value o |})
           <$> v1beta1.Spec_Optimization spec;
         redskyapi.Parameters := parameters;
         redskyapi.Constraints :=
           mbind convertConstraint (v1beta1.Constraints spec);
         redskyapi.Metrics :=
           (λ m, {| redskyapi.Metric_Name := v1beta1.Metric_Name m;
                    redskyapi.Minimize := v1beta1.Minimize m;
                    redskyapi.Optimize := v1beta1.Optimize m |})
           <$> v1beta1.Metrics spec |} in
    let baseline :=
      {| redskyapi.TrialAssignments_SelfURL := "";
         redskyapi.TrialAssignments_Labels := {["baseline" := "true"]};
         redskyapi.Assignments := assignments |} in
    (* Check that we have the correct number of assignments *)
    if (length assignments =? 0)%nat then
      Ok (redskyapi.NewExperimentName (metav1.Name meta), out, None)
    else if negb (length assignments =? length parameters)%nat then
      Err baselineCountError
    else
      Ok (redskyapi.NewExperimentName (metav1.Name meta), out,
          Some baseline)
  end.

(** ToCluster converts API state to cluster state. *)
Definition ToCluster (exp : v1beta1.Experiment)
  (ee : redskyapi.Experiment) : v1beta1.Experiment :=
  let meta := v1beta1.Experiment_ObjectMeta exp in
  let annotations :=
    match metav1.Annotations meta with
    | None => ∅
    | Some a => a
    end in
  let annotations :=
    <[v1beta1.AnnotationExperimentURL := redskyapi.SelfURL ee]>
      annotations in
  let annotations :=
    <[v1beta1.AnnotationNextTrialURL := redskyapi.NextTrialURL ee]>
      annotations in
  let meta := metav1.setAnnotations (Some annotations) meta in
  let spec := v1beta1.Experiment_Spec exp in
  let spec :=
    {| v1beta1.Spec_Optimization :=
         (λ o, {| v1beta1.Optimization_Name :=
                    redskyapi.Optimization_Name o;
                  v1beta1.Optimization_Value :=
                    redskyapi.Optimization_Value o |})
         <$> redskyapi.Experiment_Optimization ee;
       v1beta1.Parameters := v1beta1.Parameters spec;
       v1beta1.Constraints := v1beta1.Constraints spec;
       v1beta1.Metrics := v1beta1.Metrics spec |} in
  {| v1beta1.Experiment_ObjectMeta :=
       controllerutil.AddFinalizer meta Finalizer;
     v1beta1.CreationTimestamp := v1beta1.CreationTimestamp exp;
     v1beta1.Experiment_Spec := spec |}.

(** The cluster value stored for a service assignment: strings are
    kept, numbers are brought into the 32-bit signed range. *)
Definition clusterValue (a : redskyapi.Assignment) : intstr.IntOrString :=
  if numstr.IsString (redskyapi.Assignment_Value a) then
    intstr.FromString (numstr.StrVal (redskyapi.Assignment_Value a))
  else
    (* While the server supports 64-bit integers, any parameters used
       for Kubernetes experiments will have been defined with 32-bit
       integer bounds. *)
    let val := numstr.Int64Value (redskyapi.Assignment_Value a) in
    if val >? gomath.MaxInt32 then intstr.FromInt gomath.MaxInt32
    else if val <? gomath.MinInt32 then intstr.FromInt gomath.MinInt32
    else intstr.FromInt val.

(** One iteration of the loop over [suggestion.Assignments]. *)
Definition appendAssignment (acc : list v1beta1.Assignment)
  (a : redskyapi.Assignment) : list v1beta1.Assignment :=
  acc ++ [{| v1beta1.Assignment_Name := redskyapi.ParameterName a;
             v1beta1.Assignment_Value := clusterValue a |}].

(** The merge of the suggestion's labels into the trial's: an empty
    value deletes the key.  The keys of a map are distinct, so the
    result does not depend on the iteration order. *)
Definition mergeLabels (labels : option (gmap string string))
  (suggested : gmap string string) : option (gmap string string) :=
  if (0 <? size suggested)%nat then
    let start := match labels with None => ∅ | Some l => l end in
    Some (map_fold
            (λ k v (l : gmap string string),
               if negb (String.eqb v "") then <[k := v]> l
               else delete k l)
            start suggested)
  else labels.

(** The trial name derived from the URL of the suggestion. *)
Definition trialName (generateName selfURL : string) : string :=
  let name := gostrings.Base selfURL in
  match gostrings.ParseInt name with
  | Some num => (generateName ++ gostrings.format03d num)%string
  | None => (generateName ++ name)%string
  end.

Section ToClusterTrial.
(** [trial.UpdateStatus] belongs to another package; it recomputes
    the status of the trial it is given and touches nothing else. *)
Variable UpdateStatus : v1beta1.Trial → v1beta1.TrialStatus.

(** ToClusterTrial converts API state to cluster state. *)
Definition ToClusterTrial (t : v1beta1.Trial)
  (suggestion : redskyapi.TrialAssignments) : outcome v1beta1.Trial :=
  let meta := v1beta1.Trial_ObjectMeta t in
  match metav1.Annotations meta with
  | None => Panics "assignment to entry in nil map"
  | Some annotations =>
    let selfURL := redskyapi.TrialAssignments_SelfURL suggestion in
    let meta :=
      metav1.setAnnotations
        (Some (<[v1beta1.AnnotationReportTrialURL := selfURL]>
                 annotations)) meta in
    (* Try to make the cluster trial names match what is on the
       server *)
    let meta :=
      if String.eqb (metav1.Name meta) ""
         && negb (String.eqb (metav1.GenerateName meta) "")
         && negb (String.eqb selfURL "")
      then metav1.setName
             (trialName (metav1.GenerateName meta) selfURL) meta
      else meta in
    let spec :=
      v1beta1.setAssignments
        (foldl appendAssignment
               (v1beta1.Assignments (v1beta1.Trial_Spec t))
               (redskyapi.Assignments suggestion))
        (v1beta1.Trial_Spec t) in
    let meta :=
      metav1.setLabels
        (mergeLabels (metav1.Labels meta)
                     (redskyapi.TrialAssignments_Labels suggestion))
        meta in
    let t1 :=
      {| v1beta1.Trial_ObjectMeta := meta;
         v1beta1.Trial_Spec := spec;
         v1beta1.Trial_Status := v1beta1.Trial_Status t |} in
    let status := UpdateStatus t1 in
    Returns
      {| v1beta1.Trial_ObjectMeta :=
           controllerutil.AddFinalizer meta Finalizer;
         v1beta1.Trial_Spec := spec;
         v1beta1.Trial_Status := status |}
  end.
End ToClusterTrial.

Section FromClusterTrial.
Context `{Float64}.

(** The loop over the status conditions; the state is
    [(out.Failed, out.FailureReason, out.FailureMessage)]. *)
Definition checkFailed (st : bool * string * string)
  (c : v1beta1.TrialCondition) : bool * string * string :=
  if String.eqb (v1beta1.Condition_Type c) v1beta1.TrialFailed
     && String.eqb (v1beta1.Condition_Status c) corev1.ConditionTrue
  then (true, v1beta1.Reason c, v1beta1.Message c)
  else st.

(** One iteration of the loop over [t.Spec.Values]. *)
Definition appendValue (acc : list redskyapi.Value) (v : v1beta1.Value)
  : list redskyapi.Value :=
  match ParseFloat (v1beta1.Value_Value v) with
  | Some fv =>
    let ev :=
      match ParseFloat (v1beta1.Value_Error v) with
      | Some ev => ev
      | None => float64_zero
      end in
    acc ++ [{| redskyapi.MetricName := v1beta1.Value_Name v;
               redskyapi.Value_Value := fv;
               redskyapi.Value_Error := ev |}]
  | None => acc
  end.

(** FromClusterTrial converts cluster state to API state. *)
Definition FromClusterTrial (t : v1beta1.Trial) : redskyapi.TrialValues :=
  let status := v1beta1.Trial_Status t in
  (* Check to see if the trial failed *)
  let '(failed, reason, message) :=
    foldl checkFailed (false, "", "") (v1beta1.Conditions status) in
  (* Record the values only if we didn't fail *)
  let values :=
    if negb failed
    then foldl appendValue [] (v1beta1.Spec_Values (v1beta1.Trial_Spec t))
    else [] in
  {| redskyapi.StartTime := v1beta1.StartTime status;
     redskyapi.CompletionTime := v1beta1.CompletionTime status;
     redskyapi.Values := values;
     redskyapi.Failed := failed;
     redskyapi.FailureReason := reason;
     redskyapi.FailureMessage := message |}.
End FromClusterTrial.
End server.

(** ** The replica selector of the generation package *)

Module generation.
Local Open Scope Z_scope.

(** [yaml.ResourceMeta], through its identifying fields. *)
Record ResourceMeta := {
  APIVersion : string;
  Kind : string;
  Name : string;
  Namespace : string
}.

Definition ParameterNamer := ResourceMeta → list string → string → string.

(** A scanned node.  The YAML scalar is observed only through
    [value.Decode(&v)] with [v] a Go [int], so the node carries the
    outcome of that call: the decoded integer or the decoding error. *)
Record pnode := {
  meta : ResourceMeta;
  fieldPath : list string;
  value : result Z
}.

(** [replicaParameter] embeds [pnode] and adds nothing. *)
Definition replicaParameter := pnode.

Definition Parameters (p : replicaParameter) (name : ParameterNamer)
  : result (list v1beta1.Param) :=
  match value p with
  | Err e => Err e
  | Ok v =>
    if v <=? 0 then Ok []
    else
      let baselineReplicas := intstr.FromInt v in
      let minReplicas := 1 in
      let maxReplicas := 5 in
      (* Only adjust the max replica count if necessary *)
      let maxReplicas :=
        if intstr.IntVal baselineReplicas >? maxReplicas
        then intstr.IntVal baselineReplicas
        else maxReplicas in
      Ok [{| v1beta1.Parameter_Name :=
               name (meta p) (fieldPath p) "replicas";
             v1beta1.Min := minReplicas;
             v1beta1.Max := maxReplicas;
             v1beta1.Values := [];
             v1beta1.Baseline := Some baselineReplicas |}]
  end.
End generation.

(** ** internal/trial: the job builder *)

(** What [NewJob] takes from other packages and from the JSON and
    strategic merge patch libraries.  A [document] is the serialised
    form of a job ([[]byte] in Go). *)
Class JobEnv := {
  (** [t.ExperimentNamespacedName().Name] *)
  ExperimentName : v1beta1.Trial → string;
  (** the variables [setup.AppendPrometheusEnv] appends *)
  PrometheusEnv : v1beta1.Trial → list corev1.EnvVar;
  IsTrialJobReference : v1beta1.Trial → corev1.ObjectReference → bool;
  (** [Duration.String()] and the [%.0f] rendering of
      [Duration.Seconds()] *)
  DurationString : metav1.Duration → string;
  FormatSeconds : metav1.Duration → string;
  document : Type;
  (** [json.Marshal], [strategicpatch.StrategicMergePatch] and
      [json.Unmarshal]; [None] when they return an error *)
  Marshal : batchv1.Job → option document;
  StrategicMergePatch : document → string → option document;
  Unmarshal : document → option batchv1.Job
}.

Module trial.
Local Open Scope list_scope.
Local Open Scope Z_scope.

(** Functional updates of the parts of a job that [NewJob] assigns. *)
Definition withObjectMeta (f : metav1.ObjectMeta → metav1.ObjectMeta)
  (job : batchv1.Job) : batchv1.Job :=
  {| batchv1.ObjectMeta := f (batchv1.ObjectMeta job);
     batchv1.Spec := batchv1.Spec job |}.

Definition withTemplate
  (f : corev1.PodTemplateSpec → corev1.PodTemplateSpec)
  (job : batchv1.Job) : batchv1.Job :=
  {| batchv1.ObjectMeta := batchv1.ObjectMeta job;
     batchv1.Spec :=
       {| batchv1.BackoffLimit := batchv1.BackoffLimit (batchv1.Spec job);
          batchv1.Template := f (batchv1.Template (batchv1.Spec job)) |} |}.

Definition withTemplateMeta (f : metav1.ObjectMeta → metav1.ObjectMeta)
  : batchv1.Job → batchv1.Job :=
  withTemplate (λ tpl,
    {| corev1.Template_ObjectMeta := f (corev1.Template_ObjectMeta tpl);
       corev1.Template_Spec := corev1.Template_Spec tpl |}).

Definition withPodSpec (f : corev1.PodSpec → corev1.PodSpec)
  : batchv1.Job → batchv1.Job :=
  withTemplate (λ tpl,
    {| corev1.Template_ObjectMeta := corev1.Template_ObjectMeta tpl;
       corev1.Template_Spec := f (corev1.Template_Spec tpl) |}).

Definition setBackoffLimit (b : option Z) (job : batchv1.Job)
  : batchv1.Job :=
  {| batchv1.ObjectMeta := batchv1.ObjectMeta job;
     batchv1.Spec :=
       {| batchv1.BackoffLimit := b;
          batchv1.Template := batchv1.Template (batchv1.Spec job) |} |}.

Definition setRestartPolicy (r : string) : batchv1.Job → batchv1.Job :=
  withPodSpec (λ s,
    {| corev1.RestartPolicy := r;
       corev1.Containers := corev1.Containers s |}).

Definition setContainers (cs : list corev1.Container)
  : batchv1.Job → batchv1.Job :=
  withPodSpec (λ s,
    {| corev1.RestartPolicy := corev1.RestartPolicy s;
       corev1.Containers := cs |}).

Definition podSpec (job : batchv1.Job) : corev1.PodSpec :=
  corev1.Template_Spec (batchv1.Template (batchv1.Spec job)).

(** Modelled from the spec: [meta.AddLabel] is not among the sources.
    The job is "labeled with the owning experiment/trial identity":
    the label is set on the object, whose label map is created when it
    is nil. *)
Definition AddLabel (label value : string) (m : metav1.ObjectMeta)
  : metav1.ObjectMeta :=
  let labels := match metav1.Labels m with None => ∅ | Some l => l end in
  metav1.setLabels (Some (<[label := value]> labels)) m.

(** [IntOrString.String()]: the string, or the decimal rendering of the
    integer. *)
Definition valueString (v : intstr.IntOrString) : string :=
  match intstr.Type_ v with
  | intstr.String => intstr.StrVal v
  | intstr.Int =>
    let n := intstr.IntVal v in
    string_of_list_ascii
      ((if n <? 0 then ["-"%char] else [])
         ++ gostrings.decimal (Z.abs n))
  end.

Definition assignmentEnvVar (a : v1beta1.Assignment) : corev1.EnvVar :=
  {| corev1.EnvVar_Name := v1beta1.Assignment_Name a;
     corev1.EnvVar_Value := valueString (v1beta1.Assignment_Value a) |}.

(** Modelled from the spec: [setup.AppendAssignmentEnv] is not among
    the sources.  "Every declared assignment is exposed ... as an
    environment variable", the variables being "named after
    parameters": one variable per assignment of the trial is appended
    to the environment given. *)
Definition AppendAssignmentEnv (t : v1beta1.Trial)
  (env : list corev1.EnvVar) : list corev1.EnvVar :=
  env ++ (assignmentEnvVar
            <$> v1beta1.Assignments (v1beta1.Trial_Spec t)).

Section Builder.
Context `{JobEnv}.

Definition AppendPrometheusEnv (t : v1beta1.Trial)
  (env : list corev1.EnvVar) : list corev1.EnvVar :=
  env ++ PrometheusEnv t.

Definition sleepScript (s : metav1.Duration) : string :=
  ("echo 'Sleeping for " ++ DurationString s ++ "...' && sleep "
     ++ FormatSeconds s ++ " && echo 'Done.'")%string.

Definition addDefaultContainer (t : v1beta1.Trial) (job : batchv1.Job)
  : batchv1.Job :=
  (* Determine the sleep time *)
  let s :=
    match v1beta1.ApproximateRuntime (v1beta1.Trial_Spec t) with
    | None => 2 * metav1.Minute
    | Some d => if d =? 0 then 2 * metav1.Minute else d
    end in
  let s :=
    match v1beta1.StartTimeOffset (v1beta1.Trial_Spec t) with
    | Some offset => gomath.int64 (s + offset)
    | None => s
    end in
  (* Add a busybox container that just runs sleep *)
  setContainers
    [{| corev1.Container_Name := "default-trial-run";
        corev1.Image := "busybox";
        corev1.Command := ["/bin/sh"];
        corev1.Args := ["-c"; sleepScript s];
        corev1.Env := [] |}]
    job.

(** The loop of [patchSelf] over the remaining patch operations. *)
Fixpoint patchSelfFrom (t : v1beta1.Trial) (job : batchv1.Job)
  (ops : list v1beta1.PatchOperation) : batchv1.Job :=
  match ops with
  | [] => job
  | po :: ops' =>
    if IsTrialJobReference t (v1beta1.TargetRef po)
       && String.eqb (v1beta1.PatchType po)
                     types.StrategicMergePatchType
    then
      (* Ignore errors all the way down, only overwrite the job if
         everything is successful *)
      match Marshal job with
      | Some original =>
        match StrategicMergePatch original (v1beta1.Data po) with
        | Some patched =>
          match Unmarshal patched with
          | Some j => j
          | None => patchSelfFrom t job ops'
          end
        | None => patchSelfFrom t job ops'
        end
      | None => patchSelfFrom t job ops'
      end
    else patchSelfFrom t job ops'
  end.

Definition patchSelf (t : v1beta1.Trial) (job : batchv1.Job)
  : batchv1.Job :=
  patchSelfFrom t job
    (v1beta1.PatchOperations (v1beta1.Trial_Status t)).

(** The job as [NewJob] has built it when it reaches [patchSelf]. *)
Definition defaultedJob (t : v1beta1.Trial) : batchv1.Job :=
  let name := metav1.Name (v1beta1.Trial_ObjectMeta t) in
  let job := batchv1.zero in
  let job :=
    match v1beta1.JobTemplate (v1beta1.Trial_Spec t) with
    | Some template =>
      (* Copy the job template into the new job *)
      {| batchv1.ObjectMeta := batchv1.ObjectMeta template;
         batchv1.Spec := batchv1.Spec template |}
    | None =>
      (* If there is no job template, make sure we at least get the
         experiment name labels *)
      let job :=
        withObjectMeta
          (AddLabel v1beta1.LabelExperiment (ExperimentName t)) job in
      withTemplateMeta
        (AddLabel v1beta1.LabelExperiment (ExperimentName t)) job
    end in
  (* Apply labels *)
  let job := withObjectMeta (AddLabel v1beta1.LabelTrial name) job in
  let job := withTemplateMeta (AddLabel v1beta1.LabelTrial name) job in
  let job :=
    withObjectMeta (AddLabel v1beta1.LabelTrialRole "trialRun") job in
  let job :=
    withTemplateMeta (AddLabel v1beta1.LabelTrialRole "trialRun") job in
  (* Provide default metadata *)
  let job :=
    withObjectMeta
      (metav1.setNamespace
         (metav1.Namespace (v1beta1.Trial_ObjectMeta t))) job in
  let job :=
    if String.eqb (metav1.Name (batchv1.ObjectMeta job)) ""
    then withObjectMeta (metav1.setName name) job
    else job in
  (* The default restart policy for a pod is not acceptable in the
     context of a job *)
  let job :=
    if String.eqb (corev1.RestartPolicy (podSpec job)) ""
    then setRestartPolicy corev1.RestartPolicyNever job
    else job in
  (* The default backoff limit will restart the trial job which is
     unlikely to produce desirable results *)
  let job :=
    match batchv1.BackoffLimit (batchv1.Spec job) with
    | None => setBackoffLimit (Some 0) job
    | Some _ => job
    end in
  (* Expose the current assignments as environment variables to
     every container (except the default sleep container added
     below) *)
  let job :=
    setContainers
      ((λ c, corev1.setEnv
               (AppendPrometheusEnv t
                  (AppendAssignmentEnv t (corev1.Env c))) c)
         <$> corev1.Containers (podSpec job))
      job in
  (* Containers cannot be empty, inject a sleep by default *)
  if (length (corev1.Containers (podSpec job)) =? 0)%nat
  then addDefaultContainer t job
  else job.

(** NewJob returns a new trial run job from the template on the
    trial. *)
Definition NewJob (t : v1beta1.Trial) : batchv1.Job :=
  (* Check to see if there is patch for the (as of yet,
     non-existent) trial job *)
  patchSelf t (defaultedJob t).
End Builder.
End trial.

(** ** The replica selector and its defaults *)

Module selector.
(** [scan.GenericSelector]: the pattern a selector matches resources
    with.  [Default] reads [Kind] and writes [Group] and [Kind]. *)
Record GenericSelector := {
  Group : string;
  Version : string;
  Kind : string;
  Namespace : string;
  Name : string;
  LabelSelector : string
}.

(** ReplicaSelector identifies zero or more replica specifications. *)
Record ReplicaSelector := {
  Generic : GenericSelector;
  (* Path to the replica field. *)
  Path : string;
  (* Create container resource specifications even if the original object
     does not contain them. *)
  CreateIfNotPresent : bool
}.

Definition Default (s : ReplicaSelector) : ReplicaSelector :=
  let g := Generic s in
  let g :=
    if String.eqb (Kind g) "" then
      {| Group := "apps|extensions"; Version := Version g;
         Kind := "Deployment|StatefulSet"; Namespace := Namespace g;
         Name := Name g; LabelSelector := LabelSelector g |}
    else g in
  let path := if String.eqb (Path s) "" then "/spec/replicas" else Path s in
  {| Generic := g; Path := path;
     CreateIfNotPresent := CreateIfNotPresent s |}.
End selector.

(** ** internal/server: stopping an experiment *)

Module stopping.


Section StopExperiment.
(** [exp.SetReplicas] belongs to the API package. *)
Variable SetReplicas : Z → v1beta1.Experiment → v1beta1.Experiment.


End StopExperiment.
End stopping.

(** ** api/apps/v1alpha1: defaults of an application *)

Module appsv1alpha1.
(** The requests and latency configurations of an objective, with the
    fields the defaulting functions read or write. *)
Record RequestsObjective := {
  Weights : option (gmap string v1beta1.Quantity)   (* corev1.ResourceList *)
}.

Record LatencyObjective := {
  LatencyType : string
}.

Record Objective := {
  Objective_Name : string;
  Requests : option RequestsObjective;
  Latency : option LatencyObjective
}.

Record Scenario := {
  Scenario_Name : string
}.

Definition Scenario_Default (s : Scenario) : Scenario :=
  if String.eqb (Scenario_Name s) "" then {| Scenario_Name := "default" |}
  else s.

Definition countConfigs (obj : Objective) : Z :=
  let c := 0%Z in
  let c := if Requests obj is Some _ then (c + 1)%Z else c in
  let c := if Latency obj is Some _ then (c + 1)%Z else c in
  c.

(** The loop over the default weights: a weight is set only for a
    resource that has none yet.  The keys of a map are distinct, so the
    result does not depend on the iteration order. *)
Definition fillWeights (existing weights : gmap string v1beta1.Quantity)
  : gmap string v1beta1.Quantity :=
  map_fold (λ k v (w : gmap string v1beta1.Quantity),
              match w !! k with
              | Some _ => w
              | None => <[k := v]> w
              end)
           existing weights.

Definition defaultRequestsObjectiveWeights (obj : Objective)
  (weights : gmap string v1beta1.Quantity) : Objective :=
  let withRequests (requests : RequestsObjective) : Objective :=
    let existing :=
      match Weights requests with
      | None => ∅
      | Some w => w
      end in
    {| Objective_Name := Objective_Name obj;
       Requests := Some {| Weights := Some (fillWeights existing weights) |};
       Latency := Latency obj |} in
  match Requests obj with
  | None =>
    if negb (countConfigs obj =? 0)%Z then obj
    else withRequests {| Weights := None |}
  | Some requests => withRequests requests
  end.

Definition defaultLatencyObjective (obj : Objective) (latency : string)
  : Objective :=
  let withLatency (l : LatencyObjective) : Objective :=
    {| Objective_Name := Objective_Name obj;
       Requests := Requests obj;
       Latency :=
         Some (if String.eqb (LatencyType l) ""
               then {| LatencyType := latency |}
               else l) |} in
  match Latency obj with
  | None =>
    if negb (countConfigs obj =? 0)%Z then obj
    else withLatency {| LatencyType := "" |}
  | Some l => withLatency l
  end.

Definition defaultObjectiveName (obj : Objective) : Objective :=
  match Requests obj, Latency obj with
  | Some _, _ =>
    {| Objective_Name := "requests"; Requests := Requests obj;
       Latency := Latency obj |}
  | None, Some l =>
    {| Objective_Name := ("latency-" ++ LatencyType l)%string;
       Requests := Requests obj; Latency := Latency obj |}
  | None, None => obj
  end.
End appsv1alpha1.


(** ** Sample instances of the interfaces, for concrete evaluation *)

Module samples.
Local Open Scope list_scope.

(** A parser that accepts decimal integers only. *)
#[local] Instance decimalFloat64 : Float64 :=
  {| float64 := Z;
     float64_zero := 0%Z;
     ParseFloat := gostrings.ParseInt |}.

Definition quote : string := String (ascii_of_nat 34) EmptyString.

(** The strategic merge patch that sets the backoff limit of a job. *)
Definition backoffLimitPatch (n : string) : string :=
  ("{" ++ quote ++ "spec" ++ quote ++ ":{" ++ quote ++ "backoffLimit"
       ++ quote ++ ":" ++ n ++ "}}")%string.

Definition backoffLimitOf (patch : string) : option Z :=
  let pre := backoffLimitPatch "" in
  let head := String.substring 0 (String.length pre - 2) pre in
  let n := String.length patch in
  if String.prefix head patch
     && String.eqb (String.substring (n - 2) 2 patch) "}}"
  then gostrings.ParseInt
         (String.substring (String.length head)
            (n - String.length head - 2) patch)
  else None.

(** An environment whose documents are the jobs themselves and whose
    merge understands the patches of the backoff limit; any other patch
    text is rejected, as the library rejects text that is not a JSON
    object. *)
#[local] Instance jobEnv : JobEnv :=
  {| ExperimentName t :=
       metav1.get (metav1.Labels (v1beta1.Trial_ObjectMeta t))
                  v1beta1.LabelExperiment;
     PrometheusEnv _ := [];
     IsTrialJobReference t ref :=
       String.eqb (corev1.Kind ref) "Job"
       && String.eqb (corev1.Name ref)
                     (metav1.Name (v1beta1.Trial_ObjectMeta t));
     DurationString d :=
       (string_of_list_ascii (gostrings.decimal d) ++ "ns")%string;
     FormatSeconds d :=
       string_of_list_ascii
         (gostrings.decimal ((d + 500000000) / 1000000000)%Z);
     document := batchv1.Job;
     Marshal job := Some job;
     StrategicMergePatch original patch :=
       match backoffLimitOf patch with
       | Some n => Some (trial.setBackoffLimit (Some n) original)
       | None => None
       end;
     Unmarshal patched := Some patched |}.
End samples.

(** ** Vocabulary of the properties and sample inputs *)

Definition localParameterNames (exp : v1beta1.Experiment) : list string :=
  v1beta1.Parameter_Name <$> v1beta1.Parameters (v1beta1.Experiment_Spec exp).
Definition remoteParameterNames (ee : redskyapi.Experiment) : list string :=
  redskyapi.Parameter_Name <$> redskyapi.Parameters ee.
Definition localMetricNames (exp : v1beta1.Experiment) : list string :=
  v1beta1.Metric_Name <$> v1beta1.Metrics (v1beta1.Experiment_Spec exp).
Definition remoteMetricNames (ee : redskyapi.Experiment) : list string :=
  redskyapi.Metric_Name <$> redskyapi.Metrics ee.

(** The name set of a list of names. *)
Definition nameSet (names : list string) : gset string := list_to_set names.

(** A cluster experiment and a service experiment with the given
    parameter and metric names. *)
Definition clusterExperiment (parameters metrics : list string)
  : v1beta1.Experiment :=
  {| v1beta1.Experiment_ObjectMeta := metav1.empty;
     v1beta1.CreationTimestamp := 0%Z;
     v1beta1.Experiment_Spec :=
       {| v1beta1.Spec_Optimization := [];
          v1beta1.Parameters :=
            (λ n, {| v1beta1.Parameter_Name := n; v1beta1.Min := 1%Z;
                     v1beta1.Max := 4%Z; v1beta1.Values := [];
                     v1beta1.Baseline := None |}) <$> parameters;
          v1beta1.Constraints := [];
          v1beta1.Metrics :=
            (λ n, {| v1beta1.Metric_Name := n; v1beta1.Minimize := true;
                     v1beta1.Optimize := None |}) <$> metrics |} |}.

Definition serviceExperiment (parameters metrics : list string)
  : redskyapi.Experiment :=
  {| redskyapi.LastModified := 0%Z;
     redskyapi.SelfURL := "";
     redskyapi.NextTrialURL := "";
     redskyapi.Labels := None;
     redskyapi.Experiment_Optimization := [];
     redskyapi.Parameters :=
       (λ n, {| redskyapi.Parameter_Type := redskyapi.ParameterTypeInteger;
                redskyapi.Parameter_Name := n;
                redskyapi.Parameter_Bounds :=
                  Some {| redskyapi.Bounds_Min := 1%Z;
                          redskyapi.Bounds_Max := 4%Z |};
                redskyapi.Parameter_Values := [] |}) <$> parameters;
     redskyapi.Constraints := [];
     redskyapi.Metrics :=
       (λ n, {| redskyapi.Metric_Name := n; redskyapi.Minimize := true;
                redskyapi.Optimize := None |}) <$> metrics |}.

(** A trial without job template, with the given annotations,
    assignments and recorded patch operations. *)
Definition sampleTrial (annotations : option (gmap string string))
  (assignments : list v1beta1.Assignment)
  (operations : list v1beta1.PatchOperation) : v1beta1.Trial :=
  {| v1beta1.Trial_ObjectMeta :=
       {| metav1.Name := "trial-001"; metav1.GenerateName := "";
          metav1.Namespace := "default"; metav1.Labels := None;
          metav1.Annotations := annotations; metav1.Finalizers := [] |};
     v1beta1.Trial_Spec :=
       {| v1beta1.Assignments := assignments;
          v1beta1.Spec_Values := [];
          v1beta1.JobTemplate := None;
          v1beta1.ApproximateRuntime := None;
          v1beta1.StartTimeOffset := None |};
     v1beta1.Trial_Status :=
       {| v1beta1.Phase := ""; v1beta1.Status_Assignments := "";
          v1beta1.Status_Values := ""; v1beta1.StartTime := None;
          v1beta1.CompletionTime := None; v1beta1.Conditions := [];
          v1beta1.PatchOperations := operations |} |}.

(** A suggestion of the service with numeric assignments. *)
Definition sampleSuggestion (values : list (string * Z))
  : redskyapi.TrialAssignments :=
  {| redskyapi.TrialAssignments_SelfURL :=
       "https://example.invalid/experiments/e/trials/7";
     redskyapi.TrialAssignments_Labels := ∅;
     redskyapi.Assignments :=
       (λ nv, {| redskyapi.ParameterName := nv.1;
                 redskyapi.Assignment_Value := numstr.FromInt64 nv.2 |})
       <$> values |}.

(** The integer form of a cluster value. *)
Definition intValue (n : Z) : intstr.IntOrString :=
  {| intstr.Type_ := intstr.Int; intstr.IntVal := n; intstr.StrVal := "" |}.

(** What the cluster stores for a service assignment, in the words of the
    specification: strings as they are, numbers saturated at the bounds of
    the 32-bit signed range. *)
Definition storedAs (a : redskyapi.Assignment) (s : v1beta1.Assignment)
  : Prop :=
  v1beta1.Assignment_Name s = redskyapi.ParameterName a
  ∧ if numstr.IsString (redskyapi.Assignment_Value a)
    then v1beta1.Assignment_Value s
         = intstr.FromString (numstr.StrVal (redskyapi.Assignment_Value a))
    else
      let val := numstr.Int64Value (redskyapi.Assignment_Value a) in
      ((val > 2147483647)%Z →
       v1beta1.Assignment_Value s = intValue 2147483647)
      ∧ ((val < -2147483648)%Z →
         v1beta1.Assignment_Value s = intValue (-2147483648))
      ∧ ((-2147483648 ≤ val ≤ 2147483647)%Z →
         v1beta1.Assignment_Value s = intValue val).

(** A status condition marks the trial failed when its type is the failure
    condition and its status is true. *)
Definition marksFailed (c : v1beta1.TrialCondition) : bool :=
  String.eqb (v1beta1.Condition_Type c) v1beta1.TrialFailed
  && String.eqb (v1beta1.Condition_Status c) corev1.ConditionTrue.

(** The wire value of a collected metric value: the values whose text
    parses as a number are the ones reported, with the parsed error
    margin when there is one. *)
Definition wireValue `{Float64} (v : v1beta1.Value)
  : option redskyapi.Value :=
  fv ← ParseFloat (v1beta1.Value_Value v);
  Some {| redskyapi.MetricName := v1beta1.Value_Name v;
          redskyapi.Value_Value := fv;
          redskyapi.Value_Error :=
            default float64_zero (ParseFloat (v1beta1.Value_Error v)) |}.

(** A finished trial with the given conditions and metric values. *)
Definition finishedTrial (conditions : list v1beta1.TrialCondition)
  (values : list v1beta1.Value) : v1beta1.Trial :=
  {| v1beta1.Trial_ObjectMeta := metav1.empty;
     v1beta1.Trial_Spec :=
       {| v1beta1.Assignments := [];
          v1beta1.Spec_Values := values;
          v1beta1.JobTemplate := None;
          v1beta1.ApproximateRuntime := None;
          v1beta1.StartTimeOffset := None |};
     v1beta1.Trial_Status :=
       {| v1beta1.Phase := ""; v1beta1.Status_Assignments := "";
          v1beta1.Status_Values := ""; v1beta1.StartTime := Some 10%Z;
          v1beta1.CompletionTime := Some 20%Z;
          v1beta1.Conditions := conditions;
          v1beta1.PatchOperations := [] |} |}.

Definition failedCondition : v1beta1.TrialCondition :=
  {| v1beta1.Condition_Type := v1beta1.TrialFailed;
     v1beta1.Condition_Status := "True";
     v1beta1.Reason := "JobFailed";
     v1beta1.Message := "trial run job failed" |}.

Definition completeCondition : v1beta1.TrialCondition :=
  {| v1beta1.Condition_Type := "redskyops.dev/trial-complete";
     v1beta1.Condition_Status := "True";
     v1beta1.Reason := "";
     v1beta1.Message := "" |}.

Definition costValue : v1beta1.Value :=
  {| v1beta1.Value_Name := "cost"; v1beta1.Value_Value := "42";
     v1beta1.Value_Error := "" |}.

(** A value whose text is not a number. *)
Definition unparsedValue : v1beta1.Value :=
  {| v1beta1.Value_Name := "p95"; v1beta1.Value_Value := "abc";
     v1beta1.Value_Error := "" |}.

(** The parameters FromCluster sends to the service: all but the
    degenerate ones. *)
Definition sentParameters (exp : v1beta1.Experiment) : list v1beta1.Param :=
  filter (λ p, server.omitted p = false)
         (v1beta1.Parameters (v1beta1.Experiment_Spec exp)).

(** A baseline is in range when, as a string, it is one of the declared
    values and, as a number, it lies between the bounds. *)
Definition baselineInRange (p : v1beta1.Param) : bool :=
  match v1beta1.Baseline p with
  | None => true
  | Some b =>
    match intstr.Type_ b with
    | intstr.String => bool_decide (intstr.StrVal b ∈ v1beta1.Values p)
    | intstr.Int =>
      (v1beta1.Min p <=? intstr.IntVal b)%Z
      && (intstr.IntVal b <=? v1beta1.Max p)%Z
    end
  end.

(** The baseline assignment of a parameter, when it has a baseline. *)
Definition baselineAssignment (p : v1beta1.Param)
  : option redskyapi.Assignment :=
  b ← v1beta1.Baseline p;
  match server.baselineValue p b with
  | Ok v => Some {| redskyapi.ParameterName := v1beta1.Parameter_Name p;
                    redskyapi.Assignment_Value := v |}
  | Err _ => None
  end.


(** The replica field of a deployment, whose value decodes as given. *)
Definition replicaNode (decoded : result Z) : generation.replicaParameter :=
  {| generation.meta :=
       {| generation.APIVersion := "apps/v1";
          generation.Kind := "Deployment";
          generation.Name := "web";
          generation.Namespace := "default" |};
     generation.fieldPath := ["spec"; "replicas"];
     generation.value := decoded |}.

(** A namer that keeps the base suffix. *)
Definition suffixNamer : generation.ParameterNamer := λ _ _ name, name.

(** The job template of a trial; an absent template declares nothing. *)
Definition templateJob (t : v1beta1.Trial) : batchv1.Job :=
  default batchv1.zero (v1beta1.JobTemplate (v1beta1.Trial_Spec t)).

(** The time the placeholder container sleeps: the approximate runtime of
    the trial, two minutes when it is unset or zero, plus the start time
    offset when there is one (in 64-bit arithmetic). *)
Definition sleepDuration (t : v1beta1.Trial) : metav1.Duration :=
  let runtime :=
    match v1beta1.ApproximateRuntime (v1beta1.Trial_Spec t) with
    | Some d => if (d =? 0)%Z then (2 * metav1.Minute)%Z else d
    | None => (2 * metav1.Minute)%Z
    end in
  match v1beta1.StartTimeOffset (v1beta1.Trial_Spec t) with
  | Some offset => gomath.int64 (runtime + offset)
  | None => runtime
  end.

(** The placeholder container that sleeps for the given time. *)
Definition placeholder `{JobEnv} (d : metav1.Duration) : corev1.Container :=
  {| corev1.Container_Name := "default-trial-run";
     corev1.Image := "busybox";
     corev1.Command := ["/bin/sh"];
     corev1.Args := ["-c"; trial.sleepScript d];
     corev1.Env := [] |}.

(** A patch operation is a self patch when it targets the job of the trial
    with a strategic merge patch. *)
Definition isSelfPatch `{JobEnv} (t : v1beta1.Trial)
  (po : v1beta1.PatchOperation) : bool :=
  IsTrialJobReference t (v1beta1.TargetRef po)
  && String.eqb (v1beta1.PatchType po) types.StrategicMergePatchType.

(** Applying a patch to a job: serialise the job, merge the patch,
    deserialise the result; any of the three steps can fail. *)
Definition applyPatch `{JobEnv} (job : batchv1.Job)
  (po : v1beta1.PatchOperation) : option batchv1.Job :=
  original ← Marshal job;
  patched ← StrategicMergePatch original (v1beta1.Data po);
  Unmarshal patched.

(** A container exposes an assignment when its environment holds the
    variable of the assignment. *)
Definition exposes (c : corev1.Container) (a : v1beta1.Assignment) : Prop :=
  trial.assignmentEnvVar a ∈ corev1.Env c.

(** A trial with the given job template, timing, assignments and recorded
    patch operations. *)
Definition jobTrial (template : option batchv1.JobTemplateSpec)
  (runtime offset : option metav1.Duration)
  (assignments : list v1beta1.Assignment)
  (operations : list v1beta1.PatchOperation) : v1beta1.Trial :=
  {| v1beta1.Trial_ObjectMeta :=
       {| metav1.Name := "trial-001"; metav1.GenerateName := "";
          metav1.Namespace := "default"; metav1.Labels := None;
          metav1.Annotations := None; metav1.Finalizers := [] |};
     v1beta1.Trial_Spec :=
       {| v1beta1.Assignments := assignments;
          v1beta1.Spec_Values := [];
          v1beta1.JobTemplate := template;
          v1beta1.ApproximateRuntime := runtime;
          v1beta1.StartTimeOffset := offset |};
     v1beta1.Trial_Status :=
       {| v1beta1.Phase := ""; v1beta1.Status_Assignments := "";
          v1beta1.Status_Values := ""; v1beta1.StartTime := None;
          v1beta1.CompletionTime := None; v1beta1.Conditions := [];
          v1beta1.PatchOperations := operations |} |}.

(** A job template with the given containers and nothing else. *)
Definition containersTemplate (containers : list corev1.Container)
  : batchv1.JobTemplateSpec :=
  trial.setContainers containers batchv1.zero.

Definition workerContainer : corev1.Container :=
  {| corev1.Container_Name := "worker"; corev1.Image := "worker:1";
     corev1.Command := []; corev1.Args := [];
     corev1.Env := [{| corev1.EnvVar_Name := "MODE";
                       corev1.EnvVar_Value := "load" |}] |}.

(** A strategic merge patch operation aimed at the job of [jobTrial]. *)
Definition selfPatch (data : string) : v1beta1.PatchOperation :=
  {| v1beta1.TargetRef :=
       {| corev1.Kind := "Job"; corev1.Namespace := "default";
          corev1.Name := "trial-001"; corev1.APIVersion := "batch/v1" |};
     v1beta1.PatchType := types.StrategicMergePatchType;
     v1beta1.Data := data |}.

Definition replicasAssignment : v1beta1.Assignment :=
  {| v1beta1.Assignment_Name := "replicas";
     v1beta1.Assignment_Value := intValue 3 |}.

(** The recorded self patches of a trial, in order. *)
Definition selfPatches `{JobEnv} (t : v1beta1.Trial)
  : list v1beta1.PatchOperation :=
  filter (λ po, isSelfPatch t po = true)
         (v1beta1.PatchOperations (v1beta1.Trial_Status t)).

(** No recorded self patch applies to the job built for the trial. *)
Definition noPatchApplies `{JobEnv} (t : v1beta1.Trial) : Prop :=
  Forall (λ po, applyPatch (trial.defaultedJob t) po = None) (selfPatches t).

(** The container of the built job that stands for a container of the
    template: same name, the environment of the template kept in front,
    and every assignment of the trial exposed. *)
Definition exposesAssignments (t : v1beta1.Trial)
  (built declared : corev1.Container) : Prop :=
  corev1.Container_Name built = corev1.Container_Name declared
  ∧ corev1.Env declared `prefix_of` corev1.Env built
  ∧ Forall (exposes built) (v1beta1.Assignments (v1beta1.Trial_Spec t)).

Definition second : metav1.Duration := 1000000000%Z.

(** An experiment with the integer parameters of the given bounds, named
    after their position, and one metric. *)
Definition boundedExperiment (bounds : list (string * (Z * Z)))
  : v1beta1.Experiment :=
  {| v1beta1.Experiment_ObjectMeta := metav1.setName "bounded" metav1.empty;
     v1beta1.CreationTimestamp := 0%Z;
     v1beta1.Experiment_Spec :=
       {| v1beta1.Spec_Optimization := [];
          v1beta1.Parameters :=
            (λ nb, {| v1beta1.Parameter_Name := nb.1;
                      v1beta1.Min := nb.2.1; v1beta1.Max := nb.2.2;
                      v1beta1.Values := []; v1beta1.Baseline := None |})
            <$> bounds;
          v1beta1.Constraints := [];
          v1beta1.Metrics :=
            [{| v1beta1.Metric_Name := "cost"; v1beta1.Minimize := true;
                v1beta1.Optimize := None |}] |} |}.

(** The shape of a parameter on the wire: a categorical parameter lists
    its values and has no bounds; an integer parameter has no values and
    proper bounds, whose ends differ. *)
Definition wellShaped (p : redskyapi.Param) : Prop :=
  match redskyapi.Parameter_Type p with
  | redskyapi.ParameterTypeCategorical =>
    redskyapi.Parameter_Values p ≠ [] ∧ redskyapi.Parameter_Bounds p = None
  | redskyapi.ParameterTypeInteger =>
    redskyapi.Parameter_Values p = []
    ∧ ∃ bounds, redskyapi.Parameter_Bounds p = Some bounds
                ∧ redskyapi.Bounds_Min bounds ≠ redskyapi.Bounds_Max bounds
  end.


(** What a label of the suggestion does to a label of the trial: an empty
    value removes it, any other value replaces it, and a key the
    suggestion does not mention keeps what the trial had. *)
Definition mergedLabel (before : option string) (suggested : option string)
  : option string :=
  match suggested with
  | Some v => if String.eqb v "" then None else Some v
  | None => before
  end.

(** A trial with labels and an annotations map, waiting for its name. *)
Definition labelledTrial (name : string) (labels : option (gmap string string))
  : v1beta1.Trial :=
  {| v1beta1.Trial_ObjectMeta :=
       {| metav1.Name := name; metav1.GenerateName := "tuning-";
          metav1.Namespace := "default"; metav1.Labels := labels;
          metav1.Annotations := Some ∅;
          metav1.Finalizers := ["example.invalid/keep"] |};
     v1beta1.Trial_Spec := v1beta1.Trial_Spec (sampleTrial None [] []);
     v1beta1.Trial_Status := v1beta1.Trial_Status (sampleTrial None [] []) |}.

(** A suggestion that carries labels. *)
Definition labelSuggestion (labels : gmap string string)
  : redskyapi.TrialAssignments :=
  {| redskyapi.TrialAssignments_SelfURL :=
       "https://example.invalid/experiments/e/trials/7";
     redskyapi.TrialAssignments_Labels := labels;
     redskyapi.Assignments := [] |}.

(** An experiment that declares the given parameters and nothing else. *)
Definition parametersExperiment (parameters : list v1beta1.Param)
  : v1beta1.Experiment :=
  {| v1beta1.Experiment_ObjectMeta := metav1.setName "generated" metav1.empty;
     v1beta1.CreationTimestamp := 0%Z;
     v1beta1.Experiment_Spec :=
       {| v1beta1.Spec_Optimization := [];
          v1beta1.Parameters := parameters;
          v1beta1.Constraints := [];
          v1beta1.Metrics := [] |} |}.

(** A replica selector as a user may write it. *)
Definition userSelector (group kind path : string)
  : selector.ReplicaSelector :=
  {| selector.Generic :=
       {| selector.Group := group; selector.Version := "";
          selector.Kind := kind; selector.Namespace := "";
          selector.Name := ""; selector.LabelSelector := "app=web" |};
     selector.Path := path;
     selector.CreateIfNotPresent := true |}.

(** The labels of an object, an absent map read as the empty one. *)
Definition labelsOf (m : metav1.ObjectMeta) : gmap string string :=
  default ∅ (metav1.Labels m).

(** The metadata of the pod template of a job. *)
Definition podMeta (job : batchv1.Job) : metav1.ObjectMeta :=
  corev1.Template_ObjectMeta (batchv1.Template (batchv1.Spec job)).

(** A built container is the declared one up to its environment. *)
Definition sameProgram (built declared : corev1.Container) : Prop :=
  corev1.Container_Name built = corev1.Container_Name declared
  ∧ corev1.Image built = corev1.Image declared
  ∧ corev1.Command built = corev1.Command declared
  ∧ corev1.Args built = corev1.Args declared.

(** A job template with a name, labels, an explicit restart policy and
    backoff limit, and the worker container. *)
Definition explicitTemplate : batchv1.JobTemplateSpec :=
  {| batchv1.ObjectMeta :=
       {| metav1.Name := "load-test"; metav1.GenerateName := "";
          metav1.Namespace := "elsewhere";
          metav1.Labels := Some {["team" := "perf"]};
          metav1.Annotations := None; metav1.Finalizers := [] |};
     batchv1.Spec :=
       {| batchv1.BackoffLimit := Some 2%Z;
          batchv1.Template :=
            {| corev1.Template_ObjectMeta := metav1.empty;
               corev1.Template_Spec :=
                 {| corev1.RestartPolicy := "OnFailure";
                    corev1.Containers := [workerContainer] |} |} |} |}.

(** The weights an objective has before defaulting. *)
Definition existingWeights (obj : appsv1alpha1.Objective)
  : gmap string v1beta1.Quantity :=
  default ∅ (appsv1alpha1.Requests obj ≫= appsv1alpha1.Weights).

Definition quantity (milli : Z) : v1beta1.Quantity :=
  {| v1beta1.MilliValue := milli; v1beta1.IsZero := (milli =? 0)%Z |}.



(** A label key outside the "redskyops.dev/" name space. *)
Definition unprefixed (k : string) : Prop :=
  String.prefix "redskyops.dev/" k = false.


(** An objective with the given configurations. *)
Definition objective (requests : option appsv1alpha1.RequestsObjective)
  (latency : option appsv1alpha1.LatencyObjective)
  : appsv1alpha1.Objective :=
  {| appsv1alpha1.Objective_Name := "";
     appsv1alpha1.Requests := requests;
     appsv1alpha1.Latency := latency |}.

(** * Properties *)

(** ** Definition compatibility check *)

Lemma dom_insert_names (l : list string) (m : gmap string bool) :
  dom (foldl (λ m n, <[n := true]> m) m l) = dom m ∪ nameSet l.
Proof.
  revert m. induction l as [|n l IH]; intros m; simpl.
  - unfold nameSet. simpl. set_solver.
  - rewrite IH, dom_insert_L. unfold nameSet. simpl. set_solver.
Qed.

Lemma dom_delete_names (l : list string) (m : gmap string bool) :
  dom (foldl (λ m n, delete n m) m l) = dom m ∖ nameSet l.
Proof.
  revert m. induction l as [|n l IH]; intros m; simpl.
  - unfold nameSet. simpl. set_solver.
  - rewrite IH, dom_delete_L. unfold nameSet. simpl. set_solver.
Qed.

Lemma dom_leftover (local remote : list string) :
  dom (validation.leftover local remote) = nameSet local ∖ nameSet remote.
Proof.
  unfold validation.leftover.
  rewrite dom_delete_names, dom_insert_names, dom_empty_L. set_solver.
Qed.

(** Nothing is left over exactly when every local name is a remote name. *)
Lemma leftover_size (local remote : list string) :
  ¬ 0 < size (validation.leftover local remote)
  ↔ nameSet local ⊆ nameSet remote.
Proof.
  rewrite <- size_dom, dom_leftover. split.
  - intros Hs. assert (Hz : size (nameSet local ∖ nameSet remote) = 0) by lia.
    apply size_empty_inv in Hz. set_solver.
  - intros Hsub. assert (He : nameSet local ∖ nameSet remote = ∅) by set_solver.
    rewrite He, size_empty. lia.
Qed.

(** What the check computes: equal counts and inclusion of the local names
    in the remote ones, for parameters and for metrics. *)
Lemma CheckDefinition_succeeds_iff (exp : v1beta1.Experiment)
  (ee : redskyapi.Experiment) :
  validation.CheckDefinition exp ee = None
  ↔ (length (localParameterNames exp) = length (remoteParameterNames ee)
     ∧ nameSet (localParameterNames exp) ⊆ nameSet (remoteParameterNames ee))
    ∧ (length (localMetricNames exp) = length (remoteMetricNames ee)
       ∧ nameSet (localMetricNames exp) ⊆ nameSet (remoteMetricNames ee)).
Proof.
  unfold validation.CheckDefinition, localParameterNames,
    remoteParameterNames, localMetricNames, remoteMetricNames.
  rewrite !length_fmap.
  repeat case_decide; rewrite <- ?leftover_size; split;
    try discriminate; try tauto; intros; exfalso; tauto.
Qed.

(** Among duplicate-free lists, equal length and inclusion is equality of
    the name sets. *)
Lemma nodup_names_equal (local remote : list string) :
  NoDup local → NoDup remote →
  (length local = length remote ∧ nameSet local ⊆ nameSet remote)
  ↔ nameSet local = nameSet remote.
Proof.
  intros Hl Hr. unfold nameSet. split.
  - intros [Hlen Hsub].
    apply set_eq. apply set_subseteq_size_equiv; [exact Hsub|].
    rewrite !size_list_to_set by assumption. lia.
  - intros Heq. split; [|rewrite Heq; done].
    rewrite <- (size_list_to_set (C:=gset string) local) by assumption.
    rewrite <- (size_list_to_set (C:=gset string) remote) by assumption.
    by rewrite Heq.
Qed.

(** C1 (as stated, refuted): a cluster experiment that declares the
    parameter "cpu" twice and a service experiment that declares "cpu" and
    "memory" have the same number of parameters and different name sets,
    and the check still succeeds. *)
Lemma CheckDefinition_accepts_duplicate_names :
  let exp := clusterExperiment ["cpu"; "cpu"] ["cost"] in
  let ee := serviceExperiment ["cpu"; "memory"] ["cost"] in
  length (localParameterNames exp) = length (remoteParameterNames ee)
  ∧ nameSet (localParameterNames exp) ≠ nameSet (remoteParameterNames ee)
  ∧ validation.CheckDefinition exp ee = None.
Proof.
  split; [reflexivity|]. split; [|by vm_compute].
  intros Heq.
  assert (Hin : "memory" ∈ nameSet ["cpu"; "cpu"]).
  { change (localParameterNames _) with ["cpu"; "cpu"] in Heq.
    rewrite Heq. unfold nameSet, remoteParameterNames. simpl. set_solver. }
  unfold nameSet in Hin. simpl in Hin. set_solver.
Qed.

(** C1 (amended): when no name is declared twice on either side, the check
    succeeds exactly when the local and remote parameter name sets are
    equal and the local and remote metric name sets are equal; a mismatch
    of the parameter names is reported first. *)
Theorem CheckDefinition_name_sets (exp : v1beta1.Experiment)
  (ee : redskyapi.Experiment) :
  NoDup (localParameterNames exp) → NoDup (remoteParameterNames ee) →
  NoDup (localMetricNames exp) → NoDup (remoteMetricNames ee) →
  (validation.CheckDefinition exp ee = None
   ↔ nameSet (localParameterNames exp) = nameSet (remoteParameterNames ee)
     ∧ nameSet (localMetricNames exp) = nameSet (remoteMetricNames ee))
  ∧ (nameSet (localParameterNames exp) ≠ nameSet (remoteParameterNames ee) →
     validation.CheckDefinition exp ee = Some validation.parameterError)
  ∧ (nameSet (localParameterNames exp) = nameSet (remoteParameterNames ee) →
     nameSet (localMetricNames exp) ≠ nameSet (remoteMetricNames ee) →
     validation.CheckDefinition exp ee = Some validation.metricError).
Proof.
  intros Hlp Hrp Hlm Hrm.
  pose proof (nodup_names_equal _ _ Hlp Hrp) as HP.
  pose proof (nodup_names_equal _ _ Hlm Hrm) as HM.
  split; [rewrite CheckDefinition_succeeds_iff; tauto|].
  unfold validation.CheckDefinition.
  fold (localParameterNames exp) (remoteParameterNames ee)
       (localMetricNames exp) (remoteMetricNames ee).
  assert (HlenP : length (v1beta1.Parameters (v1beta1.Experiment_Spec exp))
                  = length (redskyapi.Parameters ee)
                  ↔ length (localParameterNames exp)
                    = length (remoteParameterNames ee))
    by (unfold localParameterNames, remoteParameterNames;
        by rewrite !length_fmap).
  assert (HlenM : length (v1beta1.Metrics (v1beta1.Experiment_Spec exp))
                  = length (redskyapi.Metrics ee)
                  ↔ length (localMetricNames exp)
                    = length (remoteMetricNames ee))
    by (unfold localMetricNames, remoteMetricNames;
        by rewrite !length_fmap).
  pose proof (leftover_size (localParameterNames exp)
                (remoteParameterNames ee)) as HsP.
  pose proof (leftover_size (localMetricNames exp)
                (remoteMetricNames ee)) as HsM.
  split; intros; repeat case_decide; try reflexivity; exfalso; tauto.
Qed.

Lemma CheckDefinition_name_sets_witness :
  let exp := clusterExperiment ["cpu"; "memory"] ["cost"] in
  let ee := serviceExperiment ["memory"; "cpu"] ["cost"] in
  (NoDup (localParameterNames exp) ∧ NoDup (remoteParameterNames ee)
   ∧ NoDup (localMetricNames exp) ∧ NoDup (remoteMetricNames ee))
  ∧ validation.CheckDefinition exp ee = None.
Proof.
  intros exp ee.
  assert (H1 : NoDup (localParameterNames exp))
    by (refine (bool_decide_unpack _ _); vm_compute; exact I).
  assert (H2 : NoDup (remoteParameterNames ee))
    by (refine (bool_decide_unpack _ _); vm_compute; exact I).
  assert (H3 : NoDup (localMetricNames exp))
    by (refine (bool_decide_unpack _ _); vm_compute; exact I).
  assert (H4 : NoDup (remoteMetricNames ee))
    by (refine (bool_decide_unpack _ _); vm_compute; exact I).
  split; [tauto|].
  destruct (CheckDefinition_name_sets exp ee H1 H2 H3 H4) as [Hiff _].
  apply Hiff. split; unfold nameSet; simpl; set_solver.
Defined.

(** ** Applying a suggestion to a trial *)

Lemma int32_in_range (v : Z) :
  (-2147483648 ≤ v ≤ 2147483647)%Z → gomath.int32 v = v.
Proof.
  intros Hv. unfold gomath.int32.
  rewrite Z.mod_small; lia.
Qed.

Lemma clusterValue_storedAs (a : redskyapi.Assignment) :
  storedAs a {| v1beta1.Assignment_Name := redskyapi.ParameterName a;
                v1beta1.Assignment_Value := server.clusterValue a |}.
Proof.
  unfold storedAs, server.clusterValue. simpl. split; [reflexivity|].
  destruct (numstr.IsString (redskyapi.Assignment_Value a)); [reflexivity|].
  unfold gomath.MaxInt32, gomath.MinInt32.
  set (val := numstr.Int64Value (redskyapi.Assignment_Value a)). simpl.
  destruct (Z.gtb_spec val 2147483647) as [Hgt|Hle].
  - repeat split; intros; try lia; reflexivity.
  - destruct (Z.ltb_spec val (-2147483648)) as [Hlt|Hge].
    + repeat split; intros; try lia; reflexivity.
    + repeat split; intros; try lia.
      unfold intstr.FromInt, intValue. by rewrite int32_in_range by lia.
Qed.

Lemma foldl_appendAssignment (l : list redskyapi.Assignment)
  (acc : list v1beta1.Assignment) :
  foldl server.appendAssignment acc l
  = acc ++ ((λ a, {| v1beta1.Assignment_Name := redskyapi.ParameterName a;
                     v1beta1.Assignment_Value := server.clusterValue a |})
              <$> l).
Proof.
  revert acc. induction l as [|a l IH]; intros acc; simpl.
  - by rewrite app_nil_r.
  - rewrite IH. unfold server.appendAssignment. by rewrite <- app_assoc.
Qed.

(** C2: on a trial whose annotations map exists, ToClusterTrial returns,
    whatever the values of the suggestion are, and the trial's assignment
    list is extended by one entry per service assignment, in order; a
    number above 2147483647 is stored as 2147483647, a number below
    -2147483648 as -2147483648, and a number in the 32-bit signed range
    unchanged. *)
Theorem ToClusterTrial_saturates
  (UpdateStatus : v1beta1.Trial → v1beta1.TrialStatus) (t : v1beta1.Trial)
  (suggestion : redskyapi.TrialAssignments)
  (annotations : gmap string string) :
  metav1.Annotations (v1beta1.Trial_ObjectMeta t) = Some annotations →
  ∃ t' stored,
    server.ToClusterTrial UpdateStatus t suggestion = Returns t'
    ∧ v1beta1.Assignments (v1beta1.Trial_Spec t')
      = v1beta1.Assignments (v1beta1.Trial_Spec t) ++ stored
    ∧ Forall2 storedAs (redskyapi.Assignments suggestion) stored.
Proof.
  intros Hann. unfold server.ToClusterTrial. rewrite Hann.
  eexists _, _. split; [reflexivity|]. simpl.
  split; [apply foldl_appendAssignment|].
  apply Forall2_fmap_r, Forall_Forall2_diag, Forall_forall.
  intros a _. apply clusterValue_storedAs.
Qed.

Lemma ToClusterTrial_saturates_witness :
  ∃ t',
    server.ToClusterTrial v1beta1.Trial_Status (sampleTrial (Some ∅) [] [])
      (sampleSuggestion [("replicas", 5000000000%Z); ("cpu", 250%Z);
                         ("memory", (-5000000000)%Z)])
    = Returns t'
    ∧ v1beta1.Assignments (v1beta1.Trial_Spec t')
      = [ {| v1beta1.Assignment_Name := "replicas";
             v1beta1.Assignment_Value := intValue 2147483647 |};
          {| v1beta1.Assignment_Name := "cpu";
             v1beta1.Assignment_Value := intValue 250 |};
          {| v1beta1.Assignment_Name := "memory";
             v1beta1.Assignment_Value := intValue (-2147483648) |} ].
Proof.
  destruct (ToClusterTrial_saturates v1beta1.Trial_Status
              (sampleTrial (Some ∅) [] [])
              (sampleSuggestion [("replicas", 5000000000%Z); ("cpu", 250%Z);
                                 ("memory", (-5000000000)%Z)])
              ∅ eq_refl) as (t' & stored & Hret & Hspec & _).
  exists t'. split; [exact Hret|].
  injection Hret as <-. reflexivity.
Defined.

(** C10: ToClusterTrial writes the report URL into the annotations map
    without creating it, so on a trial whose annotations map is nil it
    faults with a nil-map assignment; ToCluster creates the map of the
    experiment first and always leaves it non-nil with both URLs. *)
Theorem ToClusterTrial_nil_annotations
  (UpdateStatus : v1beta1.Trial → v1beta1.TrialStatus) (t : v1beta1.Trial)
  (suggestion : redskyapi.TrialAssignments) :
  metav1.Annotations (v1beta1.Trial_ObjectMeta t) = None →
  server.ToClusterTrial UpdateStatus t suggestion
  = Panics "assignment to entry in nil map"
  ∧ ∀ (exp : v1beta1.Experiment) (ee : redskyapi.Experiment),
      ∃ annotations,
        metav1.Annotations
          (v1beta1.Experiment_ObjectMeta (server.ToCluster exp ee))
        = Some annotations
        ∧ annotations !! v1beta1.AnnotationExperimentURL
          = Some (redskyapi.SelfURL ee)
        ∧ annotations !! v1beta1.AnnotationNextTrialURL
          = Some (redskyapi.NextTrialURL ee).
Proof.
  intros Hnil. split.
  - unfold server.ToClusterTrial. by rewrite Hnil.
  - intros exp ee. unfold server.ToCluster, controllerutil.AddFinalizer.
    destruct (controllerutil.containsString _ _); simpl;
      eexists; (split; [reflexivity|]);
      (split; [by rewrite lookup_insert_ne, lookup_insert_eq
              | by rewrite lookup_insert_eq]).
Qed.

Lemma ToClusterTrial_nil_annotations_witness :
  metav1.Annotations (v1beta1.Trial_ObjectMeta (sampleTrial None [] []))
  = None
  ∧ server.ToClusterTrial v1beta1.Trial_Status (sampleTrial None [] [])
      (sampleSuggestion [("replicas", 3%Z)])
    = Panics "assignment to entry in nil map".
Proof.
  split; [reflexivity|].
  apply (ToClusterTrial_nil_annotations v1beta1.Trial_Status
           (sampleTrial None [] []) (sampleSuggestion [("replicas", 3%Z)])).
  reflexivity.
Defined.

(** ** Reporting the values of a trial *)

Lemma checkFailed_unmarked (l : list v1beta1.TrialCondition)
  (st : bool * string * string) :
  Forall (λ c, marksFailed c = false) l →
  foldl server.checkFailed st l = st.
Proof.
  intros Hl. revert st. induction Hl as [|c l Hc _ IH]; intros st; simpl.
  - reflexivity.
  - rewrite IH. unfold server.checkFailed.
    unfold marksFailed in Hc. by rewrite Hc.
Qed.

Lemma checkFailed_marked (l : list v1beta1.TrialCondition)
  (st : bool * string * string) :
  Exists (λ c, marksFailed c = true) l →
  ∃ pre c post,
    l = pre ++ c :: post ∧ marksFailed c = true
    ∧ Forall (λ c', marksFailed c' = false) post
    ∧ foldl server.checkFailed st l
      = (true, v1beta1.Reason c, v1beta1.Message c).
Proof.
  revert st. induction l as [|c l IH]; intros st Hex.
  - inversion Hex.
  - destruct (decide (Exists (λ c, marksFailed c = true) l)) as [Hl|Hl].
    + destruct (IH (server.checkFailed st c) Hl)
        as (pre & c' & post & -> & Hc' & Hpost & Hfold).
      exists (c :: pre), c', post. by repeat split.
    + assert (Hc : marksFailed c = true)
        by (inversion Hex; [assumption | contradiction]).
      assert (Hall : Forall (λ c', marksFailed c' = false) l).
      { apply Forall_forall. intros c' Hin.
        destruct (marksFailed c') eqn:E; [|reflexivity].
        exfalso. apply Hl, Exists_exists. eauto. }
      exists [], c, l. repeat split; try assumption.
      simpl. rewrite checkFailed_unmarked by assumption.
      unfold server.checkFailed. unfold marksFailed in Hc. by rewrite Hc.
Qed.

Lemma foldl_appendValue `{Float64} (vs : list v1beta1.Value)
  (acc : list redskyapi.Value) :
  foldl server.appendValue acc vs = acc ++ omap wireValue vs.
Proof.
  revert acc. induction vs as [|v vs IH]; intros acc; simpl.
  - by rewrite app_nil_r.
  - rewrite IH. unfold server.appendValue, wireValue.
    destruct (ParseFloat (v1beta1.Value_Value v)) as [fv|]; simpl;
      [|reflexivity].
    rewrite <- app_assoc. simpl.
    by destruct (ParseFloat (v1beta1.Value_Error v)).
Qed.

(** C3 (as stated, refuted): a trial that did not fail holds the values
    cost = "42" and p95 = "abc"; the text of the second is not a number,
    so the record reports the first value only: not every collected value
    of a trial that did not fail is reported. *)
Lemma FromClusterTrial_drops_unparsed_value :
  let t := finishedTrial [completeCondition] [costValue; unparsedValue] in
  let out := server.FromClusterTrial (H := samples.decimalFloat64) t in
  redskyapi.Failed out = false
  ∧ v1beta1.Value_Name <$> v1beta1.Spec_Values (v1beta1.Trial_Spec t)
    = ["cost"; "p95"]
  ∧ redskyapi.MetricName <$> redskyapi.Values out = ["cost"].
Proof. repeat split. Qed.

(** C3 (amended): the record FromClusterTrial produces carries either
    failure metadata or values.  If some status condition marks the trial
    failed, the failed flag is set, the reason and message are those of
    the last such condition, and the values list is empty; otherwise the
    failed flag is unset, reason and message are empty, and the collected
    metric values whose text parses as a number are reported in order; a
    value whose text does not parse is left out. *)
Theorem FromClusterTrial_exclusive `{Float64} (t : v1beta1.Trial) :
  let conditions := v1beta1.Conditions (v1beta1.Trial_Status t) in
  let out := server.FromClusterTrial t in
  (Exists (λ c, marksFailed c = true) conditions →
   redskyapi.Failed out = true
   ∧ redskyapi.Values out = []
   ∧ ∃ pre c post,
       conditions = pre ++ c :: post ∧ marksFailed c = true
       ∧ Forall (λ c', marksFailed c' = false) post
       ∧ redskyapi.FailureReason out = v1beta1.Reason c
       ∧ redskyapi.FailureMessage out = v1beta1.Message c)
  ∧ (Forall (λ c, marksFailed c = false) conditions →
     redskyapi.Failed out = false
     ∧ redskyapi.FailureReason out = ""
     ∧ redskyapi.FailureMessage out = ""
     ∧ redskyapi.Values out
       = omap wireValue (v1beta1.Spec_Values (v1beta1.Trial_Spec t))).
Proof.
  intros conditions out. subst out. unfold server.FromClusterTrial.
  fold conditions. split.
  - intros Hex.
    destruct (checkFailed_marked conditions (false, "", "") Hex)
      as (pre & c & post & Heq & Hc & Hpost & Hfold).
    rewrite Hfold. simpl. repeat split.
    exists pre, c, post. by repeat split.
  - intros Hall. rewrite checkFailed_unmarked by assumption. simpl.
    repeat split. apply (foldl_appendValue _ []).
Qed.

Lemma FromClusterTrial_exclusive_witness :
  server.FromClusterTrial (H := samples.decimalFloat64)
    (finishedTrial [completeCondition; failedCondition] [costValue])
  = {| redskyapi.StartTime := Some 10%Z;
       redskyapi.CompletionTime := Some 20%Z;
       redskyapi.Values := [];
       redskyapi.Failed := true;
       redskyapi.FailureReason := "JobFailed";
       redskyapi.FailureMessage := "trial run job failed" |}
  ∧ redskyapi.Values
      (server.FromClusterTrial (H := samples.decimalFloat64)
         (finishedTrial [completeCondition] [costValue]))
    = [{| redskyapi.MetricName := "cost";
          redskyapi.Value_Value := 42%Z : @float64 samples.decimalFloat64;
          redskyapi.Value_Error := 0%Z : @float64 samples.decimalFloat64 |}].
Proof.
  pose proof (FromClusterTrial_exclusive (H := samples.decimalFloat64)
                (finishedTrial [completeCondition; failedCondition]
                               [costValue])) as [Hfailed _].
  pose proof (FromClusterTrial_exclusive (H := samples.decimalFloat64)
                (finishedTrial [completeCondition] [costValue]))
    as [_ Hok].
  split.
  - destruct Hfailed as (_ & _ & _); [|reflexivity].
    apply Exists_cons_tl, Exists_cons_hd. reflexivity.
  - destruct Hok as (_ & _ & _ & Hvalues).
    + repeat constructor.
    + rewrite Hvalues. reflexivity.
Defined.

(** ** Converting an experiment for the service *)

Lemma stringSliceContains_elem_of (a : list string) (x : string) :
  server.stringSliceContains a x = bool_decide (x ∈ a).
Proof.
  induction a as [|s a IH]; cbn [server.stringSliceContains].
  - symmetry. apply bool_decide_eq_false_2. set_solver.
  - destruct (String.eqb_spec s x) as [->|Hne].
    + symmetry. apply bool_decide_eq_true_2. set_solver.
    + rewrite IH. apply bool_decide_ext. set_solver.
Qed.

Lemma baselineValue_in_range (p : v1beta1.Param) (b : intstr.IntOrString) :
  v1beta1.Baseline p = Some b →
  baselineInRange p = isOk (server.baselineValue p b).
Proof.
  intros Hb. unfold baselineInRange, server.baselineValue. rewrite Hb.
  destruct (intstr.Type_ b).
  - destruct (Z.ltb_spec (intstr.IntVal b) (v1beta1.Min p));
      destruct (Z.gtb_spec (intstr.IntVal b) (v1beta1.Max p)); simpl;
      rewrite ?andb_false_iff, ?andb_true_iff, ?Z.leb_le, ?Z.leb_gt; lia.
  - rewrite stringSliceContains_elem_of.
    by destruct (bool_decide _).
Qed.

Lemma convertParameters_in_range (ps : list v1beta1.Param)
  (outParameters : list redskyapi.Param)
  (assignments : list redskyapi.Assignment) :
  let sent := filter (λ p, server.omitted p = false) ps in
  Forall (λ p, baselineInRange p = true) sent →
  server.convertParameters ps outParameters assignments
  = Ok (outParameters ++ (server.remoteParameter <$> sent),
        assignments ++ omap baselineAssignment sent).
Proof.
  revert outParameters assignments.
  induction ps as [|p ps IH]; intros outP bl sent Hin; subst sent; simpl.
  - by rewrite !app_nil_r.
  - rewrite filter_cons in *. destruct (server.omitted p) eqn:Hom.
    + rewrite decide_False in * by discriminate. by apply IH.
    + rewrite decide_True in * by reflexivity.
      apply Forall_cons in Hin as [Hp Hps]. simpl.
      unfold baselineAssignment at 1.
      destruct (v1beta1.Baseline p) as [b|] eqn:Hb; simpl.
      * rewrite (baselineValue_in_range p b Hb) in Hp.
        destruct (server.baselineValue p b) as [v|e]; [|discriminate].
        rewrite IH by assumption. by rewrite <- !app_assoc.
      * rewrite IH by assumption. by rewrite <- !app_assoc.
Qed.

Lemma convertParameters_out_of_range (ps : list v1beta1.Param)
  (outParameters : list redskyapi.Param)
  (assignments : list redskyapi.Assignment) :
  Exists (λ p, baselineInRange p = false)
         (filter (λ p, server.omitted p = false) ps) →
  ∃ name, server.convertParameters ps outParameters assignments
          = Err (server.baselineRangeError name).
Proof.
  revert outParameters assignments.
  induction ps as [|p ps IH]; intros outP bl Hex; simpl.
  - inversion Hex.
  - rewrite filter_cons in Hex. destruct (server.omitted p) eqn:Hom.
    + rewrite decide_False in Hex by discriminate. by apply IH.
    + rewrite decide_True in Hex by reflexivity.
      destruct (v1beta1.Baseline p) as [b|] eqn:Hb.
      * pose proof (baselineValue_in_range p b Hb) as Hr.
        destruct (server.baselineValue p b) as [v|e] eqn:Hv.
        -- apply Exists_cons in Hex as [Hp|Hps]; [|by apply IH].
           rewrite Hr in Hp. discriminate.
        -- unfold server.baselineValue in Hv.
           exists (v1beta1.Parameter_Name p).
           repeat case_match; congruence.
      * apply Exists_cons in Hex as [Hp|Hps]; [|by apply IH].
        unfold baselineInRange in Hp. rewrite Hb in Hp. discriminate.
Qed.









(** ** The replica parameter *)

(** C5 (as stated, refuted): a replica field that decodes to 4294967296
    yields one parameter whose upper bound is 5, not max(5, 4294967296);
    the 32-bit baseline has wrapped around to 0. *)
Lemma Parameters_large_replicas_wrap :
  generation.Parameters (replicaNode (Ok 4294967296%Z)) suffixNamer
  = Ok [{| v1beta1.Parameter_Name := "replicas";
           v1beta1.Min := 1%Z;
           v1beta1.Max := 5%Z;
           v1beta1.Values := [];
           v1beta1.Baseline := Some (intValue 0) |}]
  ∧ Z.max 5 4294967296 ≠ 5%Z.
Proof. split; [reflexivity | lia]. Qed.

(** C5 (amended): for a replica field whose value decodes to v, Parameters
    returns no parameter and no error when v <= 0, and, when v is positive
    and fits the 32-bit signed range of the bounds, exactly one parameter
    with minimum 1, maximum max(5, v) and baseline v. *)
Theorem Parameters_replica_bounds (p : generation.replicaParameter)
  (name : generation.ParameterNamer) (v : Z) :
  generation.value p = Ok v →
  ((v ≤ 0)%Z → generation.Parameters p name = Ok [])
  ∧ ((0 < v ≤ 2147483647)%Z →
     generation.Parameters p name
     = Ok [{| v1beta1.Parameter_Name :=
                name (generation.meta p) (generation.fieldPath p)
                     "replicas";
              v1beta1.Min := 1%Z;
              v1beta1.Max := Z.max 5 v;
              v1beta1.Values := [];
              v1beta1.Baseline := Some (intValue v) |}]).
Proof.
  intros Hv. unfold generation.Parameters. rewrite Hv. split.
  - intros Hle. by rewrite (proj2 (Z.leb_le v 0) Hle).
  - intros [Hpos Hmax]. rewrite (proj2 (Z.leb_gt v 0)) by lia.
    unfold intstr.FromInt. simpl. rewrite int32_in_range by lia.
    unfold intValue.
    destruct (Z.gtb_spec v 5); do 3 f_equal; lia.
Qed.

Lemma Parameters_replica_bounds_witness :
  generation.Parameters (replicaNode (Ok 8%Z)) suffixNamer
  = Ok [{| v1beta1.Parameter_Name := "replicas";
           v1beta1.Min := 1%Z;
           v1beta1.Max := 8%Z;
           v1beta1.Values := [];
           v1beta1.Baseline := Some (intValue 8) |}]
  ∧ generation.Parameters (replicaNode (Ok 0%Z)) suffixNamer = Ok [].
Proof.
  split.
  - apply (Parameters_replica_bounds (replicaNode (Ok 8%Z)) suffixNamer 8
             eq_refl). lia.
  - apply (Parameters_replica_bounds (replicaNode (Ok 0%Z)) suffixNamer 0
             eq_refl). lia.
Defined.

(** ** The job builder *)

Section JobBuilder.
Context `{JobEnv}.

(** The loop of patchSelf returns the result of the first self patch that
    applies, and the job it was given when there is none. *)
Lemma patchSelfFrom_first (t : v1beta1.Trial) (job : batchv1.Job)
  (ops : list v1beta1.PatchOperation) :
  trial.patchSelfFrom t job ops
  = default job
      (head (omap (applyPatch job) (filter (λ po, isSelfPatch t po = true) ops))).
Proof.
  induction ops as [|po ops IH]; simpl; [reflexivity|].
  change (IsTrialJobReference t (v1beta1.TargetRef po)
          && String.eqb (v1beta1.PatchType po)
                        types.StrategicMergePatchType)
    with (isSelfPatch t po).
  rewrite filter_cons.
  destruct (decide (isSelfPatch t po = true)) as [Hm|Hm].
  - rewrite Hm. simpl. unfold applyPatch at 1.
    destruct (Marshal job) as [original|]; simpl; [|exact IH].
    destruct (StrategicMergePatch original (v1beta1.Data po))
      as [patched|]; simpl; [|exact IH].
    destruct (Unmarshal patched) as [j|]; simpl; [reflexivity|exact IH].
  - apply not_true_is_false in Hm. rewrite Hm. exact IH.
Qed.

Lemma defaultedJob_restartPolicy (t : v1beta1.Trial) :
  corev1.RestartPolicy (trial.podSpec (trial.defaultedJob t))
  = if String.eqb (corev1.RestartPolicy (trial.podSpec (templateJob t))) ""
    then "Never"
    else corev1.RestartPolicy (trial.podSpec (templateJob t)).
Proof.
  destruct t as [tm [asg vals [[[[|c n] g ns l an fz] [b [pm [[|a r] cs]]]]|] rt off] st];
    try destruct b; try destruct cs; reflexivity.
Qed.

Lemma defaultedJob_backoffLimit (t : v1beta1.Trial) :
  batchv1.BackoffLimit (batchv1.Spec (trial.defaultedJob t))
  = match batchv1.BackoffLimit (batchv1.Spec (templateJob t)) with
    | None => Some 0%Z
    | Some limit => Some limit
    end.
Proof.
  destruct t as [tm [asg vals [[[[|c n] g ns l an fz] [b [pm [[|a r] cs]]]]|] rt off] st];
    try destruct b; try destruct cs; reflexivity.
Qed.

Lemma defaultedJob_containers (t : v1beta1.Trial) :
  corev1.Containers (trial.podSpec (trial.defaultedJob t))
  = match corev1.Containers (trial.podSpec (templateJob t)) with
    | [] => [placeholder (sleepDuration t)]
    | containers =>
      (λ c, corev1.setEnv
              (trial.AppendPrometheusEnv t
                 (trial.AppendAssignmentEnv t (corev1.Env c))) c)
      <$> containers
    end.
Proof.
  destruct t as [tm [asg vals [[[[|c n] g ns l an fz] [b [pm [[|a r] cs]]]]|] rt off] st];
    try destruct b; try destruct cs; reflexivity.
Qed.
End JobBuilder.

Section JobBuilderClaims.
Context `{JobEnv}.

(** NewJob returns the job patched by the first self patch that applies,
    and the job it built when none does; other operations are ignored. *)
Lemma NewJob_first_patch (t : v1beta1.Trial) :
  trial.NewJob t
  = default (trial.defaultedJob t)
      (head (omap (applyPatch (trial.defaultedJob t)) (selfPatches t))).
Proof. apply patchSelfFrom_first. Qed.

Lemma omap_all_none {A B} (f : A → option B) (l : list A) :
  Forall (λ x, f x = None) l → omap f l = [].
Proof.
  induction 1 as [|x l Hx _ IH]; simpl; [reflexivity|]. by rewrite Hx.
Qed.

Lemma NewJob_unpatched (t : v1beta1.Trial) :
  noPatchApplies t → trial.NewJob t = trial.defaultedJob t.
Proof.
  intros Hnone. rewrite NewJob_first_patch.
  by rewrite (omap_all_none _ _ Hnone).
Qed.
End JobBuilderClaims.

(** C6 (as stated, refuted): with an approximate runtime of 60 seconds and
    a start time offset of 30 seconds the placeholder container sleeps for
    90 seconds, not for the approximate runtime; and a recorded self patch
    that sets the backoff limit to 3 is applied after the defaults, so the
    returned job has the limit 3 although the template left it nil. *)
Lemma NewJob_offset_and_patch_override :
  let t := jobTrial None (Some (60 * second)%Z) (Some (30 * second)%Z)
                    [] [] in
  let t' := jobTrial None None None []
                     [selfPatch (samples.backoffLimitPatch "3")] in
  (corev1.Containers (trial.podSpec (trial.NewJob (H := samples.jobEnv) t))
   = [placeholder (H := samples.jobEnv) (90 * second)%Z]
   ∧ placeholder (H := samples.jobEnv) (90 * second)%Z
     ≠ placeholder (H := samples.jobEnv) (60 * second)%Z)
  ∧ (batchv1.BackoffLimit (batchv1.Spec (templateJob t')) = None
     ∧ batchv1.BackoffLimit
         (batchv1.Spec (trial.NewJob (H := samples.jobEnv) t'))
       = Some 3%Z).
Proof.
  repeat split; try reflexivity.
  vm_compute. discriminate.
Qed.

(** C6 (amended): when no recorded self patch applies, the job returned by
    NewJob has restart policy "Never" if the template leaves the policy
    empty, a backoff limit of zero if the template's limit is nil, and, if
    the template declares no containers, exactly one placeholder container,
    which sleeps for the approximate runtime of the trial (two minutes when
    unset or zero) plus the start time offset when one is set. *)
Theorem NewJob_defaults `{JobEnv} (t : v1beta1.Trial) :
  noPatchApplies t →
  let template := templateJob t in
  let job := trial.NewJob t in
  (corev1.RestartPolicy (trial.podSpec template) = "" →
   corev1.RestartPolicy (trial.podSpec job) = "Never")
  ∧ (batchv1.BackoffLimit (batchv1.Spec template) = None →
     batchv1.BackoffLimit (batchv1.Spec job) = Some 0%Z)
  ∧ (corev1.Containers (trial.podSpec template) = [] →
     corev1.Containers (trial.podSpec job)
     = [placeholder (sleepDuration t)]).
Proof.
  intros Hnone template job. subst job. rewrite (NewJob_unpatched t Hnone).
  repeat split.
  - intros Hr. rewrite defaultedJob_restartPolicy. fold template.
    by rewrite Hr.
  - intros Hb. rewrite defaultedJob_backoffLimit. fold template.
    by rewrite Hb.
  - intros Hc. rewrite defaultedJob_containers. fold template.
    by rewrite Hc.
Qed.

Lemma NewJob_defaults_witness :
  let t := jobTrial None None None [replicasAssignment] [] in
  let job := trial.NewJob (H := samples.jobEnv) t in
  corev1.RestartPolicy (trial.podSpec job) = "Never"
  ∧ batchv1.BackoffLimit (batchv1.Spec job) = Some 0%Z
  ∧ corev1.Containers (trial.podSpec job)
    = [placeholder (H := samples.jobEnv) (120 * second)%Z].
Proof.
  intros t job.
  assert (Hnone : noPatchApplies (H := samples.jobEnv) t) by constructor.
  destruct (NewJob_defaults (H := samples.jobEnv) t Hnone)
    as (Hr & Hb & Hc).
  split; [apply Hr; reflexivity|].
  split; [apply Hb; reflexivity | apply Hc; reflexivity].
Defined.

(** C7 (as stated, refuted): the trial records two self patches; merging
    the first, which is not JSON, fails, and still NewJob does not return
    the unpatched job: it goes on to the second one and returns the job
    with the backoff limit 3. *)
Lemma NewJob_continues_after_failed_patch :
  let bad := selfPatch "not json" in
  let good := selfPatch (samples.backoffLimitPatch "3") in
  let t := jobTrial None None None [] [bad; good] in
  let job := trial.defaultedJob (H := samples.jobEnv) t in
  isSelfPatch (H := samples.jobEnv) t bad = true
  ∧ applyPatch (H := samples.jobEnv) job bad = None
  ∧ trial.NewJob (H := samples.jobEnv) t = trial.setBackoffLimit (Some 3%Z) job
  ∧ trial.NewJob (H := samples.jobEnv) t ≠ job.
Proof.
  repeat split; try reflexivity.
  vm_compute. discriminate.
Qed.

(** C7 (amended): NewJob never fails.  It looks only at the recorded
    operations that target the job of the trial with a strategic merge
    patch, in order: if each of them fails at some step (serialising the
    built job, merging, deserialising), the unpatched job is returned
    unchanged; otherwise the job patched by the first of them whose every
    step succeeds is returned.  Operations of another patch type or target
    are ignored. *)
Theorem NewJob_self_patch `{JobEnv} (t : v1beta1.Trial) :
  let job := trial.defaultedJob t in
  (Forall (λ po, applyPatch job po = None) (selfPatches t) →
   trial.NewJob t = job)
  ∧ (∀ pre po post j,
       selfPatches t = pre ++ po :: post →
       Forall (λ po', applyPatch job po' = None) pre →
       applyPatch job po = Some j →
       trial.NewJob t = j)
  ∧ (∀ t',
       trial.defaultedJob t' = job → selfPatches t' = selfPatches t →
       trial.NewJob t' = trial.NewJob t).
Proof.
  intros job. split; [apply NewJob_unpatched|]. split.
  - intros pre po post j Hsplit Hpre Hpo.
    rewrite NewJob_first_patch, Hsplit, omap_app. fold job.
    rewrite (omap_all_none _ _ Hpre). simpl. by rewrite Hpo.
  - intros t' Hjob Hpatches.
    by rewrite !NewJob_first_patch, Hjob, Hpatches.
Qed.

Lemma NewJob_self_patch_witness :
  let bad := selfPatch "not json" in
  let good := selfPatch (samples.backoffLimitPatch "3") in
  let t := jobTrial None None None [] [bad; good] in
  let t0 := jobTrial None None None [] [bad] in
  trial.NewJob (H := samples.jobEnv) t
  = trial.setBackoffLimit (Some 3%Z)
      (trial.defaultedJob (H := samples.jobEnv) t)
  ∧ trial.NewJob (H := samples.jobEnv) t0
    = trial.defaultedJob (H := samples.jobEnv) t0.
Proof.
  intros bad good t t0. split.
  - destruct (NewJob_self_patch (H := samples.jobEnv) t) as (_ & Hfirst & _).
    apply (Hfirst [bad] good []); [reflexivity| |reflexivity].
    repeat constructor.
  - destruct (NewJob_self_patch (H := samples.jobEnv) t0) as (Hnone & _).
    apply Hnone. repeat constructor.
Defined.

(** C8 (as stated, refuted): a trial without job template declares the
    assignment replicas = 3; the only container of the job is the
    placeholder, whose environment is empty, so the assignment is not
    exposed in it. *)
Lemma NewJob_placeholder_without_assignments :
  let t := jobTrial None None None [replicasAssignment] [] in
  corev1.Containers (trial.podSpec (trial.NewJob (H := samples.jobEnv) t))
  = [placeholder (H := samples.jobEnv) (120 * second)%Z]
  ∧ ¬ exposes (placeholder (H := samples.jobEnv) (120 * second)%Z)
              replicasAssignment.
Proof.
  split; [reflexivity|].
  unfold exposes. simpl. apply not_elem_of_nil.
Qed.

(** C8 (amended): when no recorded self patch applies, the job returned by
    NewJob has one container per container of the template, under the same
    name, and every declared assignment is exposed as an environment
    variable in each of them, after the variables the template gave it;
    the placeholder container substituted when the template declares no
    containers has no environment variables. *)
Theorem NewJob_exposes_assignments `{JobEnv} (t : v1beta1.Trial) :
  noPatchApplies t →
  let declared := corev1.Containers (trial.podSpec (templateJob t)) in
  let built := corev1.Containers (trial.podSpec (trial.NewJob t)) in
  (declared ≠ [] → Forall2 (exposesAssignments t) built declared)
  ∧ (declared = [] →
     built = [placeholder (sleepDuration t)]
     ∧ corev1.Env (placeholder (sleepDuration t)) = []).
Proof.
  intros Hnone declared built. subst built.
  rewrite (NewJob_unpatched t Hnone), defaultedJob_containers.
  fold declared. split.
  - intros Hne. destruct declared as [|c cs] eqn:Hd; [done|].
    apply Forall2_fmap_l, Forall_Forall2_diag, Forall_forall.
    intros c' _. unfold exposesAssignments. simpl.
    unfold trial.AppendPrometheusEnv, trial.AppendAssignmentEnv.
    split; [reflexivity|]. split.
    + rewrite <- app_assoc. by apply prefix_app_r.
    + apply Forall_forall. intros a Ha. unfold exposes. simpl.
      apply elem_of_app. left. apply elem_of_app. right.
      by apply list_elem_of_fmap_2.
  - intros ->. by split.
Qed.

Lemma NewJob_exposes_assignments_witness :
  let t := jobTrial (Some (containersTemplate [workerContainer])) None None
                    [replicasAssignment] [] in
  Forall2 (exposesAssignments t)
    (corev1.Containers (trial.podSpec (trial.NewJob (H := samples.jobEnv) t)))
    [workerContainer].
Proof.
  intros t.
  assert (Hnone : noPatchApplies (H := samples.jobEnv) t) by constructor.
  destruct (NewJob_exposes_assignments (H := samples.jobEnv) t Hnone)
    as [Hexposed _].
  apply Hexposed. discriminate.
Defined.

(** * Further properties of the code *)

(** ** FromCluster and CheckDefinition together *)

Lemma convertParameters_ok_in_range (ps : list v1beta1.Param)
  (outParameters : list redskyapi.Param)
  (assignments : list redskyapi.Assignment)
  (r : list redskyapi.Param * list redskyapi.Assignment) :
  server.convertParameters ps outParameters assignments = Ok r →
  Forall (λ p, baselineInRange p = true)
         (filter (λ p, server.omitted p = false) ps).
Proof.
  intros Hok.
  destruct (decide (Forall (λ p, baselineInRange p = true)
                      (filter (λ p, server.omitted p = false) ps)))
    as [Hin|Hout]; [assumption|].
  apply not_Forall_Exists in Hout; [|intros p; apply _].
  assert (Hex : Exists (λ p, baselineInRange p = false)
                  (filter (λ p, server.omitted p = false) ps)).
  { eapply Exists_impl; [exact Hout|]. simpl. intros p Hp.
    by destruct (baselineInRange p). }
  destruct (convertParameters_out_of_range ps outParameters assignments Hex)
    as [n Herr]. congruence.
Qed.

(** What a successful conversion returns. *)
Lemma FromCluster_ok_inv (exp : v1beta1.Experiment)
  (n : redskyapi.ExperimentName) (out : redskyapi.Experiment)
  (b : option redskyapi.TrialAssignments) :
  server.FromCluster exp = Ok (n, out, b) →
  Forall (λ p, baselineInRange p = true) (sentParameters exp)
  ∧ n = metav1.Name (v1beta1.Experiment_ObjectMeta exp)
  ∧ redskyapi.Parameters out = server.remoteParameter <$> sentParameters exp
  ∧ redskyapi.Metrics out
    = (λ m, {| redskyapi.Metric_Name := v1beta1.Metric_Name m;
               redskyapi.Minimize := v1beta1.Minimize m;
               redskyapi.Optimize := v1beta1.Optimize m |})
      <$> v1beta1.Metrics (v1beta1.Experiment_Spec exp)
  ∧ redskyapi.Constraints out
    = mbind server.convertConstraint
            (v1beta1.Constraints (v1beta1.Experiment_Spec exp))
  ∧ match b with
    | None => omap baselineAssignment (sentParameters exp) = []
    | Some bl =>
      redskyapi.Assignments bl = omap baselineAssignment (sentParameters exp)
      ∧ length (redskyapi.Assignments bl) = length (sentParameters exp)
    end.
Proof.
  unfold server.FromCluster. intros Hok.
  destruct (server.convertParameters _ [] []) as [[ps bl]|e] eqn:Hconv;
    [|discriminate].
  pose proof (convertParameters_ok_in_range _ _ _ _ Hconv) as Hin.
  rewrite convertParameters_in_range in Hconv by exact Hin.
  injection Hconv as <- <-. fold (sentParameters exp) in *.
  split; [exact Hin|].
  destruct (Nat.eqb_spec (length (omap baselineAssignment (sentParameters exp)))
              0) as [Hz|Hnz].
  - injection Hok as <- <- <-. repeat split.
    by apply length_zero_iff_nil.
  - destruct (Nat.eqb_spec (length (omap baselineAssignment
                                      (sentParameters exp)))
                (length (server.remoteParameter <$> sentParameters exp)))
      as [He|Hne]; simpl in Hok; [|discriminate].
    injection Hok as <- <- <-. repeat split.
    simpl. by rewrite He, length_fmap.
Qed.

Lemma remoteParameter_name (l : list v1beta1.Param) :
  redskyapi.Parameter_Name <$> (server.remoteParameter <$> l)
  = v1beta1.Parameter_Name <$> l.
Proof.
  rewrite <- list_fmap_compose. apply list_fmap_ext. intros _ p _. simpl.
  unfold server.remoteParameter. by destruct (0 <? length _)%nat.
Qed.

Lemma filter_all {A} (P : A → Prop) `{∀ x, Decision (P x)} (l : list A) :
  Forall P l → filter P l = l.
Proof.
  induction 1 as [|x l Hx _ IH]; [reflexivity|].
  by rewrite filter_cons_True, IH.
Qed.

(** X1: when FromCluster succeeds, the record it returns passes
    CheckDefinition against the experiment it came from exactly when no
    parameter of the experiment is degenerate (min = max without values):
    a degenerate parameter is left out of the record, the counts then
    differ, and the check reports incompatible parameter definitions. *)
Theorem CheckDefinition_after_FromCluster (exp : v1beta1.Experiment)
  (n : redskyapi.ExperimentName) (out : redskyapi.Experiment)
  (b : option redskyapi.TrialAssignments) :
  server.FromCluster exp = Ok (n, out, b) →
  let parameters := v1beta1.Parameters (v1beta1.Experiment_Spec exp) in
  (Forall (λ p, server.omitted p = false) parameters →
   validation.CheckDefinition exp out = None)
  ∧ (Exists (λ p, server.omitted p = true) parameters →
     validation.CheckDefinition exp out = Some validation.parameterError).
Proof.
  intros Hok parameters.
  destruct (FromCluster_ok_inv _ _ _ _ Hok) as (_ & _ & Hp & Hm & _).
  split.
  - intros Hall. apply CheckDefinition_succeeds_iff.
    unfold localParameterNames, remoteParameterNames, localMetricNames,
      remoteMetricNames.
    rewrite Hp, Hm, remoteParameter_name. unfold sentParameters.
    fold parameters. rewrite (filter_all _ _ Hall).
    rewrite <- list_fmap_compose. simpl. done.
  - intros Hex. apply Exists_exists in Hex as (p & Hin & Hom).
    unfold validation.CheckDefinition. rewrite Hp, length_fmap.
    unfold sentParameters. fold parameters.
    assert (Hlt : (length (filter (λ p, server.omitted p = false) parameters)
                   < length parameters)%nat).
    { apply (length_filter_lt _ _ p); [exact Hin|].
      rewrite Hom. discriminate. }
    rewrite decide_False by lia. reflexivity.
Qed.

Lemma CheckDefinition_after_FromCluster_witness :
  (∃ n out b,
     server.FromCluster (boundedExperiment [("cpu", (1, 4)%Z)])
     = Ok (n, out, b)
     ∧ validation.CheckDefinition (boundedExperiment [("cpu", (1, 4)%Z)]) out
       = None)
  ∧ (∃ n out b,
       server.FromCluster
         (boundedExperiment [("cpu", (1, 4)%Z); ("fixed", (2, 2)%Z)])
       = Ok (n, out, b)
       ∧ validation.CheckDefinition
           (boundedExperiment [("cpu", (1, 4)%Z); ("fixed", (2, 2)%Z)]) out
         = Some validation.parameterError).
Proof.
  split.
  - destruct (server.FromCluster (boundedExperiment [("cpu", (1, 4)%Z)]))
      as [[[n out] b]|e] eqn:Hok; [|by vm_compute in Hok].
    exists n, out, b. split; [reflexivity|].
    apply (CheckDefinition_after_FromCluster _ n out b Hok).
    repeat constructor.
  - destruct (server.FromCluster
                (boundedExperiment [("cpu", (1, 4)%Z); ("fixed", (2, 2)%Z)]))
      as [[[n out] b]|e] eqn:Hok; [|by vm_compute in Hok].
    exists n, out, b. split; [reflexivity|].
    apply (CheckDefinition_after_FromCluster _ n out b Hok).
    apply Exists_cons_tl, Exists_cons_hd. reflexivity.
Defined.

(** The three outcomes of the check. *)
Lemma CheckDefinition_cases (exp : v1beta1.Experiment)
  (ee : redskyapi.Experiment) :
  validation.CheckDefinition exp ee
  = if decide (length (localParameterNames exp)
               = length (remoteParameterNames ee)
               ∧ nameSet (localParameterNames exp)
                 ⊆ nameSet (remoteParameterNames ee))
    then if decide (length (localMetricNames exp)
                    = length (remoteMetricNames ee)
                    ∧ nameSet (localMetricNames exp)
                      ⊆ nameSet (remoteMetricNames ee))
         then None
         else Some validation.metricError
    else Some validation.parameterError.
Proof.
  pose proof (leftover_size (localParameterNames exp)
                (remoteParameterNames ee)) as HsP.
  pose proof (leftover_size (localMetricNames exp)
                (remoteMetricNames ee)) as HsM.
  unfold validation.CheckDefinition.
  fold (localParameterNames exp) (remoteParameterNames ee)
       (localMetricNames exp) (remoteMetricNames ee).
  unfold localParameterNames, remoteParameterNames, localMetricNames,
    remoteMetricNames in *.
  rewrite !length_fmap.
  repeat case_decide; try reflexivity; exfalso; tauto.
Qed.

(** X2: the outcome of CheckDefinition does not depend on the order in
    which either side declares its parameters or its metrics. *)
Theorem CheckDefinition_order_insensitive (exp exp' : v1beta1.Experiment)
  (ee ee' : redskyapi.Experiment) :
  localParameterNames exp ≡ₚ localParameterNames exp' →
  remoteParameterNames ee ≡ₚ remoteParameterNames ee' →
  localMetricNames exp ≡ₚ localMetricNames exp' →
  remoteMetricNames ee ≡ₚ remoteMetricNames ee' →
  validation.CheckDefinition exp ee = validation.CheckDefinition exp' ee'.
Proof.
  intros Hlp Hrp Hlm Hrm. rewrite !CheckDefinition_cases. unfold nameSet.
  rewrite (Permutation_length Hlp), (Permutation_length Hrp),
    (Permutation_length Hlm), (Permutation_length Hrm).
  rewrite (list_to_set_perm_L _ _ Hlp), (list_to_set_perm_L _ _ Hrp),
    (list_to_set_perm_L _ _ Hlm), (list_to_set_perm_L _ _ Hrm).
  reflexivity.
Qed.

Lemma CheckDefinition_order_insensitive_witness :
  validation.CheckDefinition
    (clusterExperiment ["cpu"; "memory"] ["cost"; "p95"])
    (serviceExperiment ["cpu"; "memory"] ["cost"; "p95"])
  = validation.CheckDefinition
      (clusterExperiment ["memory"; "cpu"] ["p95"; "cost"])
      (serviceExperiment ["cpu"; "memory"] ["p95"; "cost"]).
Proof.
  apply CheckDefinition_order_insensitive.
  - apply perm_swap.
  - reflexivity.
  - apply perm_swap.
  - apply perm_swap.
Defined.

Lemma remoteParameter_wellShaped (p : v1beta1.Param) :
  server.omitted p = false → wellShaped (server.remoteParameter p).
Proof.
  unfold server.omitted, server.remoteParameter, wellShaped.
  destruct (v1beta1.Values p) as [|v vs] eqn:Hv; simpl.
  - rewrite andb_true_r. intros Hne%Z.eqb_neq. split; [reflexivity|].
    eexists. split; [reflexivity|]. exact Hne.
  - intros _. by split.
Qed.

(** X3: every parameter of a record FromCluster returns is well shaped,
    either categorical with a non-empty value list and no bounds, or an
    integer parameter with bounds whose minimum differs from the maximum;
    the names of the parameters sent are a sublist of the declared names,
    in the declared order. *)
Theorem FromCluster_parameter_shapes (exp : v1beta1.Experiment)
  (n : redskyapi.ExperimentName) (out : redskyapi.Experiment)
  (b : option redskyapi.TrialAssignments) :
  server.FromCluster exp = Ok (n, out, b) →
  Forall wellShaped (redskyapi.Parameters out)
  ∧ remoteParameterNames out `sublist_of` localParameterNames exp.
Proof.
  intros Hok.
  destruct (FromCluster_ok_inv _ _ _ _ Hok) as (_ & _ & Hp & _).
  unfold remoteParameterNames, localParameterNames. rewrite Hp. split.
  - apply Forall_fmap, Forall_forall. intros p Hin.
    apply remoteParameter_wellShaped.
    unfold sentParameters in Hin. by apply list_elem_of_filter in Hin as [? _].
  - rewrite remoteParameter_name. apply fmap_sublist.
    unfold sentParameters. apply sublist_filter.
Qed.

Lemma FromCluster_parameter_shapes_witness :
  ∃ n out b,
    server.FromCluster
      (boundedExperiment [("cpu", (1, 4)%Z); ("fixed", (2, 2)%Z);
                          ("memory", (8, 64)%Z)])
    = Ok (n, out, b)
    ∧ Forall wellShaped (redskyapi.Parameters out)
    ∧ remoteParameterNames out = ["cpu"; "memory"].
Proof.
  destruct (server.FromCluster
              (boundedExperiment [("cpu", (1, 4)%Z); ("fixed", (2, 2)%Z);
                                  ("memory", (8, 64)%Z)]))
    as [[[n out] b]|e] eqn:Hok; [|by vm_compute in Hok].
  exists n, out, b. split; [reflexivity|].
  split; [apply (FromCluster_parameter_shapes _ n out b Hok)|].
  vm_compute in Hok. injection Hok as _ <- _. reflexivity.
Defined.

(** ** ToCluster *)

Lemma containsString_elem_of (l : list string) (x : string) :
  controllerutil.containsString l x = true ↔ x ∈ l.
Proof.
  induction l as [|s l IH]; simpl.
  - split; [discriminate|]. intros Hin. by apply not_elem_of_nil in Hin.
  - destruct (String.eqb_spec s x) as [->|Hne].
    + split; [intros _; apply list_elem_of_here|reflexivity].
    + rewrite IH. split; [apply list_elem_of_further|].
      intros Hin. apply elem_of_cons in Hin as [->|Hin]; [done|exact Hin].
Qed.

(** AddFinalizer leaves the finalizer in the list, keeps the finalizers
    that were there in front, and changes nothing once it is there. *)
Lemma AddFinalizer_spec (m : metav1.ObjectMeta) (f : string) :
  f ∈ metav1.Finalizers (controllerutil.AddFinalizer m f)
  ∧ metav1.Finalizers m
    `prefix_of` metav1.Finalizers (controllerutil.AddFinalizer m f)
  ∧ controllerutil.AddFinalizer (controllerutil.AddFinalizer m f) f
    = controllerutil.AddFinalizer m f
  ∧ metav1.Annotations (controllerutil.AddFinalizer m f)
    = metav1.Annotations m
  ∧ metav1.Labels (controllerutil.AddFinalizer m f) = metav1.Labels m
  ∧ metav1.Name (controllerutil.AddFinalizer m f) = metav1.Name m
  ∧ metav1.GenerateName (controllerutil.AddFinalizer m f)
    = metav1.GenerateName m
  ∧ metav1.Namespace (controllerutil.AddFinalizer m f) = metav1.Namespace m.
Proof.
  unfold controllerutil.AddFinalizer.
  destruct (controllerutil.containsString (metav1.Finalizers m) f) eqn:Hc.
  - rewrite Hc. repeat split; try reflexivity.
    by apply containsString_elem_of.
  - simpl.
    assert (Hin : controllerutil.containsString (metav1.Finalizers m ++ [f]) f
                  = true).
    { apply containsString_elem_of, elem_of_app. right.
      apply list_elem_of_here. }
    rewrite Hin. repeat split; try reflexivity.
    + apply elem_of_app. right. apply list_elem_of_here.
    + by apply prefix_app_r.
Qed.

Lemma insert_urls_twice (m : gmap string string) (e n : string) :
  <[v1beta1.AnnotationNextTrialURL := n]>
    (<[v1beta1.AnnotationExperimentURL := e]>
       (<[v1beta1.AnnotationNextTrialURL := n]>
          (<[v1beta1.AnnotationExperimentURL := e]> m)))
  = <[v1beta1.AnnotationNextTrialURL := n]>
      (<[v1beta1.AnnotationExperimentURL := e]> m).
Proof.
  apply map_eq. intros k. rewrite !lookup_insert.
  repeat case_decide; reflexivity.
Qed.

(** X4: ToCluster is idempotent: applying the same service record a second
    time changes nothing (the URLs are overwritten by themselves and the
    finalizer is not added twice).  It replaces the optimization settings
    by those of the service, leaves the parameters, constraints and
    metrics of the experiment alone, keeps the finalizers that were there
    and leaves the server finalizer among them. *)
Theorem ToCluster_idempotent (exp : v1beta1.Experiment)
  (ee : redskyapi.Experiment) :
  let exp' := server.ToCluster exp ee in
  server.ToCluster exp' ee = exp'
  ∧ v1beta1.Parameters (v1beta1.Experiment_Spec exp')
    = v1beta1.Parameters (v1beta1.Experiment_Spec exp)
  ∧ v1beta1.Constraints (v1beta1.Experiment_Spec exp')
    = v1beta1.Constraints (v1beta1.Experiment_Spec exp)
  ∧ v1beta1.Metrics (v1beta1.Experiment_Spec exp')
    = v1beta1.Metrics (v1beta1.Experiment_Spec exp)
  ∧ length (v1beta1.Spec_Optimization (v1beta1.Experiment_Spec exp'))
    = length (redskyapi.Experiment_Optimization ee)
  ∧ server.Finalizer
    ∈ metav1.Finalizers (v1beta1.Experiment_ObjectMeta exp')
  ∧ metav1.Finalizers (v1beta1.Experiment_ObjectMeta exp)
    `prefix_of` metav1.Finalizers (v1beta1.Experiment_ObjectMeta exp').
Proof.
  intros exp'. subst exp'. unfold server.ToCluster.
  set (meta := v1beta1.Experiment_ObjectMeta exp).
  set (ann := match metav1.Annotations meta with
              | Some a => a
              | None => ∅
              end).
  set (meta1 := metav1.setAnnotations _ meta).
  destruct (AddFinalizer_spec meta1 server.Finalizer)
    as (Hin & Hpre & Hidem & Hann & _).
  cbn [v1beta1.Experiment_ObjectMeta v1beta1.Experiment_Spec
       v1beta1.CreationTimestamp v1beta1.Parameters v1beta1.Constraints
       v1beta1.Metrics v1beta1.Spec_Optimization].
  repeat split; try assumption; try reflexivity.
  - f_equal. rewrite Hann. subst meta1. cbn [metav1.Annotations metav1.setAnnotations].
    rewrite insert_urls_twice.
    set (a := <[v1beta1.AnnotationNextTrialURL := _]> _).
    replace (metav1.setAnnotations (Some a)
               (controllerutil.AddFinalizer
                  (metav1.setAnnotations (Some a) meta) server.Finalizer))
      with (controllerutil.AddFinalizer
              (metav1.setAnnotations (Some a) meta) server.Finalizer).
    + exact Hidem.
    + unfold controllerutil.AddFinalizer.
      destruct (controllerutil.containsString _ _); reflexivity.
  - by rewrite length_fmap.
Qed.



(** ** ToClusterTrial: labels, metadata and names *)

Lemma mergeLabels_lookup (labels : option (gmap string string))
  (suggested : gmap string string) :
  (suggested = ∅ → server.mergeLabels labels suggested = labels)
  ∧ (suggested ≠ ∅ →
     ∃ merged, server.mergeLabels labels suggested = Some merged
               ∧ ∀ k, merged !! k
                      = mergedLabel (default ∅ labels !! k) (suggested !! k)).
Proof.
  unfold server.mergeLabels. split.
  - intros ->. by rewrite map_size_empty.
  - intros Hne.
    assert (Hsize : (0 <? size suggested)%nat = true).
    { apply Nat.ltb_lt. pose proof (map_size_ne_0_lookup suggested) as Hs.
      destruct (size suggested) eqn:E; [|lia].
      by apply map_size_empty_iff in E. }
    rewrite Hsize. eexists. split; [reflexivity|].
    replace (match labels with Some l => l | None => ∅ end)
      with (default ∅ labels) by (by destruct labels).
    generalize (default ∅ labels). intros start. clear.
    apply (map_fold_weak_ind
             (λ r m, ∀ k, r !! k = mergedLabel (start !! k) (m !! k))).
    + intros k. by rewrite lookup_empty.
    + intros i x m r Hi IH k. unfold mergedLabel in *.
      destruct (decide (k = i)) as [->|Hki].
      * rewrite lookup_insert_eq.
        destruct (String.eqb x ""); simpl;
          [by rewrite lookup_delete_eq | by rewrite lookup_insert_eq].
      * rewrite (lookup_insert_ne m) by done. rewrite <- IH.
        destruct (String.eqb x ""); simpl;
          [by rewrite lookup_delete_ne | by rewrite lookup_insert_ne].
Qed.

Lemma labels_setName_if (b : bool) (n : string) (m : metav1.ObjectMeta) :
  metav1.Labels (if b then metav1.setName n m else m) = metav1.Labels m.
Proof. by destruct b. Qed.

(** X6: on a trial whose annotations map exists, ToClusterTrial merges the
    labels of the suggestion into those of the trial key by key: a label
    suggested with the empty value is removed, a label suggested with
    another value takes that value, and every other label is kept.  A
    suggestion without labels leaves the labels as they were, nil
    included. *)
Theorem ToClusterTrial_labels
  (UpdateStatus : v1beta1.Trial → v1beta1.TrialStatus) (t : v1beta1.Trial)
  (suggestion : redskyapi.TrialAssignments)
  (annotations : gmap string string) :
  metav1.Annotations (v1beta1.Trial_ObjectMeta t) = Some annotations →
  ∃ t',
    server.ToClusterTrial UpdateStatus t suggestion = Returns t'
    ∧ (redskyapi.TrialAssignments_Labels suggestion = ∅ →
       metav1.Labels (v1beta1.Trial_ObjectMeta t')
       = metav1.Labels (v1beta1.Trial_ObjectMeta t))
    ∧ (redskyapi.TrialAssignments_Labels suggestion ≠ ∅ →
       ∃ merged,
         metav1.Labels (v1beta1.Trial_ObjectMeta t') = Some merged
         ∧ ∀ k, merged !! k
                = mergedLabel
                    (default ∅ (metav1.Labels (v1beta1.Trial_ObjectMeta t))
                     !! k)
                    (redskyapi.TrialAssignments_Labels suggestion !! k)).
Proof.
  intros Hann. unfold server.ToClusterTrial. rewrite Hann.
  eexists. split; [reflexivity|].
  cbn [v1beta1.Trial_ObjectMeta].
  match goal with
  | |- context [controllerutil.AddFinalizer ?m ?f] =>
    destruct (AddFinalizer_spec m f) as (_ & _ & _ & _ & Hlab & _);
    rewrite Hlab
  end.
  cbn [metav1.Labels metav1.setLabels].
  rewrite labels_setName_if. cbn [metav1.Labels metav1.setAnnotations].
  apply mergeLabels_lookup.
Qed.

Lemma ToClusterTrial_labels_witness :
  ∃ t' merged,
    server.ToClusterTrial v1beta1.Trial_Status
      (labelledTrial "" (Some {["keep" := "x"; "drop" := "y"]}))
      (labelSuggestion {["drop" := ""; "new" := "z"]})
    = Returns t'
    ∧ metav1.Labels (v1beta1.Trial_ObjectMeta t') = Some merged
    ∧ merged !! "keep" = Some "x"
    ∧ merged !! "drop" = None
    ∧ merged !! "new" = Some "z".
Proof.
  destruct (ToClusterTrial_labels v1beta1.Trial_Status
              (labelledTrial "" (Some {["keep" := "x"; "drop" := "y"]}))
              (labelSuggestion {["drop" := ""; "new" := "z"]}) ∅ eq_refl)
    as (t' & Hret & _ & Hmerge).
  destruct Hmerge as (merged & Hlabels & Hlookup).
  { intros Hempty. apply (f_equal (λ m : gmap string string, m !! "new")) in Hempty.
    vm_compute in Hempty. discriminate. }
  exists t', merged. split; [exact Hret|]. split; [exact Hlabels|].
  rewrite !Hlookup. repeat split; vm_compute; reflexivity.
Defined.

Lemma name_setLabels_if (b : bool) (n : string) (m : metav1.ObjectMeta) :
  metav1.Annotations (if b then metav1.setName n m else m)
  = metav1.Annotations m
  ∧ metav1.Namespace (if b then metav1.setName n m else m)
    = metav1.Namespace m
  ∧ metav1.GenerateName (if b then metav1.setName n m else m)
    = metav1.GenerateName m
  ∧ metav1.Finalizers (if b then metav1.setName n m else m)
    = metav1.Finalizers m
  ∧ metav1.Name (if b then metav1.setName n m else m)
    = if b then n else metav1.Name m.
Proof. by destruct b. Qed.

(** X7: on a trial whose annotations map exists, ToClusterTrial records the
    URL of the suggestion under the report annotation and keeps the other
    annotations; it keeps the namespace, the generate name, the collected
    values and the job template; it never changes a name that is already
    set, and derives one only when the name is empty while the generate
    name and the URL are not (the result then starts with the generate
    name); it keeps the finalizers that were there and leaves the server
    finalizer among them. *)
Theorem ToClusterTrial_metadata
  (UpdateStatus : v1beta1.Trial → v1beta1.TrialStatus) (t : v1beta1.Trial)
  (suggestion : redskyapi.TrialAssignments)
  (annotations : gmap string string) :
  metav1.Annotations (v1beta1.Trial_ObjectMeta t) = Some annotations →
  let meta := v1beta1.Trial_ObjectMeta t in
  let url := redskyapi.TrialAssignments_SelfURL suggestion in
  ∃ t',
    server.ToClusterTrial UpdateStatus t suggestion = Returns t'
    ∧ metav1.Annotations (v1beta1.Trial_ObjectMeta t')
      = Some (<[v1beta1.AnnotationReportTrialURL := url]> annotations)
    ∧ metav1.Namespace (v1beta1.Trial_ObjectMeta t') = metav1.Namespace meta
    ∧ metav1.GenerateName (v1beta1.Trial_ObjectMeta t')
      = metav1.GenerateName meta
    ∧ v1beta1.Spec_Values (v1beta1.Trial_Spec t')
      = v1beta1.Spec_Values (v1beta1.Trial_Spec t)
    ∧ v1beta1.JobTemplate (v1beta1.Trial_Spec t')
      = v1beta1.JobTemplate (v1beta1.Trial_Spec t)
    ∧ (metav1.Name meta ≠ "" ∨ metav1.GenerateName meta = "" ∨ url = "" →
       metav1.Name (v1beta1.Trial_ObjectMeta t') = metav1.Name meta)
    ∧ (metav1.Name meta = "" → metav1.GenerateName meta ≠ "" → url ≠ "" →
       ∃ suffix,
         metav1.Name (v1beta1.Trial_ObjectMeta t')
         = (metav1.GenerateName meta ++ suffix)%string)
    ∧ server.Finalizer ∈ metav1.Finalizers (v1beta1.Trial_ObjectMeta t')
    ∧ metav1.Finalizers meta
      `prefix_of` metav1.Finalizers (v1beta1.Trial_ObjectMeta t').
Proof.
  intros Hann meta url. subst meta url. unfold server.ToClusterTrial.
  rewrite Hann. eexists. split; [reflexivity|].
  set (meta := v1beta1.Trial_ObjectMeta t) in *.
  set (url := redskyapi.TrialAssignments_SelfURL suggestion) in *.
  cbn [v1beta1.Trial_ObjectMeta v1beta1.Trial_Spec].
  match goal with
  | |- context [controllerutil.AddFinalizer ?m ?f] =>
    destruct (AddFinalizer_spec m f)
      as (Hin & Hpre & _ & Ha & _ & Hn & Hg & Hns);
    rewrite Ha, Hn, Hg, Hns;
    cbn [metav1.Finalizers metav1.setLabels] in Hpre
  end.
  cbn [metav1.Annotations metav1.Name metav1.GenerateName metav1.Namespace
       metav1.setLabels].
  match goal with
  | |- context [if ?b then metav1.setName ?n ?m else ?m] =>
    destruct (name_setLabels_if b n m) as (Ea & Ens & Eg & Ef & En);
    rewrite Ea, Ens, Eg, En; rewrite Ef in Hpre
  end.
  cbn [metav1.Annotations metav1.Name metav1.GenerateName metav1.Namespace
       metav1.Finalizers metav1.setAnnotations] in *.
  repeat split; try assumption; try reflexivity.
  - intros Hcase.
    destruct (String.eqb_spec (metav1.Name meta) ""); simpl; [|reflexivity].
    destruct (String.eqb_spec (metav1.GenerateName meta) ""); simpl;
      [reflexivity|].
    destruct (String.eqb_spec url ""); simpl; [reflexivity|].
    exfalso. tauto.
  - intros Hname Hgen Hurl.
    rewrite (proj2 (String.eqb_eq _ _) Hname).
    rewrite (proj2 (String.eqb_neq _ _) Hgen).
    rewrite (proj2 (String.eqb_neq _ _) Hurl). simpl.
    unfold server.trialName. destruct (gostrings.ParseInt _); eauto.
Qed.

Lemma ToClusterTrial_metadata_witness :
  ∃ t',
    server.ToClusterTrial v1beta1.Trial_Status (labelledTrial "" None)
      (labelSuggestion ∅)
    = Returns t'
    ∧ metav1.Name (v1beta1.Trial_ObjectMeta t') = "tuning-007"
    ∧ metav1.Finalizers (v1beta1.Trial_ObjectMeta t')
      = ["example.invalid/keep"; server.Finalizer].
Proof.
  destruct (ToClusterTrial_metadata v1beta1.Trial_Status
              (labelledTrial "" None) (labelSuggestion ∅) ∅ eq_refl)
    as (t' & Hret & _).
  exists t'. split; [exact Hret|].
  injection Hret as <-. split; reflexivity.
Defined.

(** ** Trial numbers in trial names *)








(** ** The replica parameter on its way to the service *)

(** X9: the parameter the replica selector generates for a replica count v
    with 0 < v <= 2147483647 satisfies min <= baseline <= max, is not
    degenerate, and is accepted by FromCluster: an experiment that
    declares just this parameter converts without error, sends it with
    the bounds 1 and max(5, v), and carries the baseline assignment v. *)
Theorem replica_parameter_accepted (p : generation.replicaParameter)
  (name : generation.ParameterNamer) (v : Z) :
  generation.value p = Ok v → (0 < v ≤ 2147483647)%Z →
  ∃ q,
    generation.Parameters p name = Ok [q]
    ∧ (v1beta1.Min q ≤ v ≤ v1beta1.Max q)%Z
    ∧ v1beta1.Baseline q = Some (intValue v)
    ∧ server.omitted q = false
    ∧ ∀ exp,
        v1beta1.Parameters (v1beta1.Experiment_Spec exp) = [q] →
        ∃ out baseline,
          server.FromCluster exp
          = Ok (metav1.Name (v1beta1.Experiment_ObjectMeta exp), out,
                Some baseline)
          ∧ redskyapi.Parameters out
            = [{| redskyapi.Parameter_Type := redskyapi.ParameterTypeInteger;
                  redskyapi.Parameter_Name := v1beta1.Parameter_Name q;
                  redskyapi.Parameter_Bounds :=
                    Some {| redskyapi.Bounds_Min := 1%Z;
                            redskyapi.Bounds_Max := Z.max 5 v |};
                  redskyapi.Parameter_Values := [] |}]
          ∧ redskyapi.Assignments baseline
            = [{| redskyapi.ParameterName := v1beta1.Parameter_Name q;
                  redskyapi.Assignment_Value := numstr.FromInt64 v |}].
Proof.
  intros Hv [Hpos Hmax]. unfold generation.Parameters. rewrite Hv.
  rewrite (proj2 (Z.leb_gt v 0)) by lia.
  unfold intstr.FromInt. cbn [intstr.IntVal].
  rewrite int32_in_range by lia.
  assert (Hm : (if (v >? 5)%Z then v else 5%Z) = Z.max 5 v)
    by (destruct (Z.gtb_spec v 5); lia).
  rewrite Hm. eexists. split; [reflexivity|].
  cbn [v1beta1.Min v1beta1.Max v1beta1.Baseline v1beta1.Parameter_Name].
  assert (Hom : ((1 =? Z.max 5 v)%Z && true) = false).
  { rewrite andb_true_r. apply Z.eqb_neq. lia. }
  split; [lia|]. split; [reflexivity|]. split; [exact Hom|].
  intros exp Hps. unfold server.FromCluster. rewrite Hps.
  cbn [server.convertParameters]. unfold server.omitted at 1.
  cbn [v1beta1.Min v1beta1.Max v1beta1.Values v1beta1.Baseline length
       Nat.eqb]. rewrite Hom.
  unfold server.baselineValue.
  cbn [intstr.Type_ intstr.IntVal v1beta1.Min v1beta1.Max
       v1beta1.Parameter_Name].
  rewrite (proj2 (Z.ltb_ge v 1)) by lia.
  assert (Hgt : (v >? Z.max 5 v)%Z = false)
    by (destruct (Z.gtb_spec v (Z.max 5 v)); [lia|reflexivity]).
  rewrite Hgt.
  cbn. eexists _, _. split; [reflexivity|]. split; reflexivity.
Qed.

Lemma replica_parameter_accepted_witness :
  ∃ out baseline,
    server.FromCluster
      (parametersExperiment
         [{| v1beta1.Parameter_Name := "replicas"; v1beta1.Min := 1%Z;
             v1beta1.Max := 8%Z; v1beta1.Values := [];
             v1beta1.Baseline := Some (intValue 8) |}])
    = Ok ("generated", out, Some baseline)
    ∧ redskyapi.Assignments baseline
      = [{| redskyapi.ParameterName := "replicas";
            redskyapi.Assignment_Value := numstr.FromInt64 8 |}].
Proof.
  destruct (replica_parameter_accepted (replicaNode (Ok 8%Z)) suffixNamer 8
              eq_refl) as (q & Hq & _ & _ & _ & Hexp); [lia|].
  injection Hq as <-.
  destruct (Hexp (parametersExperiment
                    [{| v1beta1.Parameter_Name := "replicas";
                        v1beta1.Min := 1%Z; v1beta1.Max := 8%Z;
                        v1beta1.Values := [];
                        v1beta1.Baseline := Some (intValue 8) |}])
              eq_refl) as (out & baseline & Hok & _ & Hbl).
  exists out, baseline. split; [exact Hok | exact Hbl].
Defined.

(** ** Defaults of the replica selector *)

(** X10: Default fills in what the user left empty and nothing else.  A
    selector with a kind keeps its group and kind, a selector with a path
    keeps its path; a selector without a kind gets the group
    "apps|extensions" and the kind "Deployment|StatefulSet" whatever group
    it had; afterwards neither the kind nor the path is empty, and a
    second Default changes nothing. *)
Theorem ReplicaSelector_Default (s : selector.ReplicaSelector) :
  let s' := selector.Default s in
  selector.Default s' = s'
  ∧ selector.Kind (selector.Generic s') ≠ ""
  ∧ selector.Path s' ≠ ""
  ∧ selector.CreateIfNotPresent s' = selector.CreateIfNotPresent s
  ∧ selector.LabelSelector (selector.Generic s')
    = selector.LabelSelector (selector.Generic s)
  ∧ (selector.Kind (selector.Generic s) ≠ "" →
     selector.Generic s' = selector.Generic s)
  ∧ (selector.Kind (selector.Generic s) = "" →
     selector.Group (selector.Generic s') = "apps|extensions"
     ∧ selector.Kind (selector.Generic s') = "Deployment|StatefulSet")
  ∧ (selector.Path s ≠ "" → selector.Path s' = selector.Path s)
  ∧ (selector.Path s = "" → selector.Path s' = "/spec/replicas").
Proof.
  destruct s as [[g v k ns n l] p c]. unfold selector.Default. simpl.
  destruct (String.eqb_spec k "") as [->|Hk];
    destruct (String.eqb_spec p "") as [->|Hp]; simpl;
    rewrite ?(proj2 (String.eqb_neq k "") Hk),
      ?(proj2 (String.eqb_neq p "") Hp);
    repeat split; try (intros; congruence); try discriminate;
    try assumption.
Qed.

Lemma ReplicaSelector_Default_witness :
  selector.Default (userSelector "custom.example" "" "")
  = {| selector.Generic :=
         {| selector.Group := "apps|extensions"; selector.Version := "";
            selector.Kind := "Deployment|StatefulSet";
            selector.Namespace := ""; selector.Name := "";
            selector.LabelSelector := "app=web" |};
       selector.Path := "/spec/replicas";
       selector.CreateIfNotPresent := true |}
  ∧ selector.Default (userSelector "argoproj.io" "Rollout" "/spec/size")
    = userSelector "argoproj.io" "Rollout" "/spec/size".
Proof.
  pose proof (ReplicaSelector_Default (userSelector "custom.example" "" ""))
    as _.
  pose proof (ReplicaSelector_Default
                (userSelector "argoproj.io" "Rollout" "/spec/size"))
    as (_ & _ & _ & _ & _ & Hkeep & _).
  split; [reflexivity|].
  specialize (Hkeep ltac:(discriminate)). reflexivity.
Defined.

(** ** Metadata of the built job *)

Section JobMetadata.
Context `{JobEnv}.

Lemma defaultedJob_objectMeta (t : v1beta1.Trial) :
  batchv1.ObjectMeta (trial.defaultedJob t)
  = let name := metav1.Name (v1beta1.Trial_ObjectMeta t) in
    let m0 :=
      match v1beta1.JobTemplate (v1beta1.Trial_Spec t) with
      | Some template => batchv1.ObjectMeta template
      | None =>
        trial.AddLabel v1beta1.LabelExperiment (ExperimentName t)
                       metav1.empty
      end in
    let m1 :=
      metav1.setNamespace
        (metav1.Namespace (v1beta1.Trial_ObjectMeta t))
        (trial.AddLabel v1beta1.LabelTrialRole "trialRun"
           (trial.AddLabel v1beta1.LabelTrial name m0)) in
    if String.eqb (metav1.Name m0) "" then metav1.setName name m1 else m1.
Proof.
  destruct t as [tm [asg vals [[[[|c n] g ns l an fz]
                                  [b [pm [[|a r] cs]]]]|] rt off] st];
    try destruct b; try destruct cs; reflexivity.
Qed.

Lemma defaultedJob_podMeta (t : v1beta1.Trial) :
  podMeta (trial.defaultedJob t)
  = let name := metav1.Name (v1beta1.Trial_ObjectMeta t) in
    let m0 :=
      match v1beta1.JobTemplate (v1beta1.Trial_Spec t) with
      | Some template => podMeta template
      | None =>
        trial.AddLabel v1beta1.LabelExperiment (ExperimentName t)
                       metav1.empty
      end in
    trial.AddLabel v1beta1.LabelTrialRole "trialRun"
      (trial.AddLabel v1beta1.LabelTrial name m0).
Proof.
  destruct t as [tm [asg vals [[[[|c n] g ns l an fz]
                                  [b [pm [[|a r] cs]]]]|] rt off] st];
    try destruct b; try destruct cs; reflexivity.
Qed.

(** The labels after the two labels of the trial have been added. *)
Lemma trial_labels_lookup (name : string) (m : metav1.ObjectMeta)
  (k : string) :
  labelsOf (trial.AddLabel v1beta1.LabelTrialRole "trialRun"
              (trial.AddLabel v1beta1.LabelTrial name m)) !! k
  = if decide (k = v1beta1.LabelTrialRole) then Some "trialRun"
    else if decide (k = v1beta1.LabelTrial) then Some name
    else labelsOf m !! k.
Proof.
  unfold labelsOf, trial.AddLabel.
  destruct (metav1.Labels m); simpl; rewrite !lookup_insert;
    repeat case_decide; subst; try reflexivity; try congruence;
    by rewrite ?lookup_empty.
Qed.
End JobMetadata.

(** X11: when no recorded self patch applies, the job returned by NewJob
    is in the namespace of the trial whatever the template says, is named
    after the template if the template has a name and after the trial
    otherwise, and carries, on the job and on its pod template, the trial
    label with the name of the trial and the trial role label "trialRun";
    every other label of the template is kept, and without a template the
    experiment label holds the name of the experiment. *)
Theorem NewJob_metadata `{JobEnv} (t : v1beta1.Trial) :
  noPatchApplies t →
  let job := trial.NewJob t in
  let name := metav1.Name (v1beta1.Trial_ObjectMeta t) in
  let template := templateJob t in
  metav1.Namespace (batchv1.ObjectMeta job)
  = metav1.Namespace (v1beta1.Trial_ObjectMeta t)
  ∧ metav1.Name (batchv1.ObjectMeta job)
    = (if String.eqb (metav1.Name (batchv1.ObjectMeta template)) ""
       then name
       else metav1.Name (batchv1.ObjectMeta template))
  ∧ (∀ meta declared,
       (meta, declared) = (batchv1.ObjectMeta job, batchv1.ObjectMeta template)
       ∨ (meta, declared) = (podMeta job, podMeta template) →
       metav1.Labels meta ≠ None
       ∧ labelsOf meta !! v1beta1.LabelTrial = Some name
       ∧ labelsOf meta !! v1beta1.LabelTrialRole = Some "trialRun"
       ∧ (v1beta1.JobTemplate (v1beta1.Trial_Spec t) = None →
          labelsOf meta !! v1beta1.LabelExperiment
          = Some (ExperimentName t))
       ∧ (∀ k, v1beta1.JobTemplate (v1beta1.Trial_Spec t) ≠ None →
               k ≠ v1beta1.LabelTrial → k ≠ v1beta1.LabelTrialRole →
               labelsOf meta !! k = labelsOf declared !! k)).
Proof.
  intros Hnone job name template. subst job.
  rewrite (NewJob_unpatched t Hnone).
  pose proof (defaultedJob_objectMeta t) as Hm.
  pose proof (defaultedJob_podMeta t) as Hp.
  cbv zeta in Hm, Hp. fold name in Hm, Hp.
  unfold template, templateJob.
  destruct (v1beta1.JobTemplate (v1beta1.Trial_Spec t)) as [tpl|] eqn:Htpl;
    cbn [default] in *.
  - split; [rewrite Hm; by destruct (String.eqb _ _)|].
    split; [rewrite Hm; by destruct (String.eqb _ _)|].
    intros meta declared [[= -> ->]|[= -> ->]].
    + assert (Hl : ∀ k, labelsOf (batchv1.ObjectMeta (trial.defaultedJob t))
                        !! k
                        = labelsOf
                            (trial.AddLabel v1beta1.LabelTrialRole "trialRun"
                               (trial.AddLabel v1beta1.LabelTrial name
                                  (batchv1.ObjectMeta tpl))) !! k).
      { intros k. rewrite Hm. by destruct (String.eqb _ _). }
      split; [rewrite Hm; by destruct (String.eqb _ _)|].
      rewrite !Hl, !trial_labels_lookup.
      repeat split; try done.
      intros k _ Hk1 Hk2. rewrite Hl, trial_labels_lookup.
      by rewrite !decide_False.
    + rewrite Hp. split; [done|].
      rewrite !trial_labels_lookup.
      repeat split; try done.
      intros k _ Hk1 Hk2. rewrite trial_labels_lookup.
      by rewrite !decide_False.
  - split; [rewrite Hm; reflexivity|].
    split; [rewrite Hm; reflexivity|].
    intros meta declared [[= -> ->]|[= -> ->]].
    + rewrite Hm. cbn [metav1.Name trial.AddLabel metav1.setLabels
                       metav1.empty String.eqb].
      split; [done|]. repeat split; try done.
    + rewrite Hp. split; [done|]. repeat split; try done.
Qed.

Lemma NewJob_metadata_witness :
  let t := jobTrial (Some explicitTemplate) None None [] [] in
  let job := trial.NewJob (H := samples.jobEnv) t in
  metav1.Namespace (batchv1.ObjectMeta job) = "default"
  ∧ metav1.Name (batchv1.ObjectMeta job) = "load-test"
  ∧ labelsOf (batchv1.ObjectMeta job) !! "team" = Some "perf"
  ∧ labelsOf (batchv1.ObjectMeta job) !! v1beta1.LabelTrial
    = Some "trial-001".
Proof.
  intros t job.
  assert (Hnone : noPatchApplies (H := samples.jobEnv) t) by constructor.
  destruct (NewJob_metadata (H := samples.jobEnv) t Hnone)
    as (Hns & Hname & Hlabels).
  split; [exact Hns|]. split; [exact Hname|].
  destruct (Hlabels _ _ (or_introl eq_refl)) as (_ & Htrial & _ & _ & Hkeep).
  split; [|exact Htrial].
  rewrite Hkeep; [reflexivity|discriminate|discriminate|discriminate].
Defined.

(** X12: when no recorded self patch applies, NewJob does not override
    what the template sets: a non-empty restart policy and a non-nil
    backoff limit are kept, and the containers of the template are kept
    in number and order with their names, images, commands and arguments;
    only their environment grows. *)
Theorem NewJob_keeps_template `{JobEnv} (t : v1beta1.Trial) :
  noPatchApplies t →
  let job := trial.NewJob t in
  let template := templateJob t in
  (corev1.RestartPolicy (trial.podSpec template) ≠ "" →
   corev1.RestartPolicy (trial.podSpec job)
   = corev1.RestartPolicy (trial.podSpec template))
  ∧ (∀ limit, batchv1.BackoffLimit (batchv1.Spec template) = Some limit →
              batchv1.BackoffLimit (batchv1.Spec job) = Some limit)
  ∧ (corev1.Containers (trial.podSpec template) ≠ [] →
     Forall2 sameProgram (corev1.Containers (trial.podSpec job))
             (corev1.Containers (trial.podSpec template))).
Proof.
  intros Hnone job template. subst job. rewrite (NewJob_unpatched t Hnone).
  rewrite defaultedJob_restartPolicy, defaultedJob_backoffLimit,
    defaultedJob_containers.
  fold template. repeat split.
  - intros Hr. by rewrite (proj2 (String.eqb_neq _ _) Hr).
  - intros limit Hl. by rewrite Hl.
  - intros Hne.
    destruct (corev1.Containers (trial.podSpec template)) as [|c cs] eqn:Hc;
      [done|].
    apply Forall2_fmap_l, Forall_Forall2_diag, Forall_forall.
    intros c' _. by repeat split.
Qed.

Lemma NewJob_keeps_template_witness :
  let t := jobTrial (Some explicitTemplate) None None [replicasAssignment]
                    [] in
  let job := trial.NewJob (H := samples.jobEnv) t in
  corev1.RestartPolicy (trial.podSpec job) = "OnFailure"
  ∧ batchv1.BackoffLimit (batchv1.Spec job) = Some 2%Z
  ∧ Forall2 sameProgram (corev1.Containers (trial.podSpec job))
            [workerContainer].
Proof.
  intros t job.
  assert (Hnone : noPatchApplies (H := samples.jobEnv) t) by constructor.
  destruct (NewJob_keeps_template (H := samples.jobEnv) t Hnone)
    as (Hr & Hb & Hc).
  split; [apply Hr; discriminate|].
  split; [apply Hb; reflexivity|].
  apply Hc. discriminate.
Defined.

(** ** Stopping an experiment *)



(** ** Defaults of an application *)

Lemma fillWeights_union (existing weights : gmap string v1beta1.Quantity) :
  appsv1alpha1.fillWeights existing weights = existing ∪ weights.
Proof.
  unfold appsv1alpha1.fillWeights.
  apply (map_fold_weak_ind (λ r m, r = existing ∪ m)).
  - by rewrite (right_id_L ∅ (∪)).
  - intros k v m r Hk ->.
    assert (Hl : (existing ∪ m) !! k = existing !! k).
    { rewrite lookup_union, Hk. by destruct (existing !! k). }
    rewrite Hl. destruct (existing !! k) as [q|] eqn:Hq.
    + apply map_eq. intros i. rewrite !lookup_union.
      destruct (decide (i = k)) as [->|Hi].
      * by rewrite Hq, Hk, lookup_insert_eq.
      * by rewrite lookup_insert_ne.
    + by rewrite insert_union_r.
Qed.

Lemma union_twice (a w : gmap string v1beta1.Quantity) :
  a ∪ w ∪ w = a ∪ w.
Proof.
  apply map_eq. intros i. rewrite !lookup_union.
  by destruct (a !! i), (w !! i).
Qed.

(** X14: defaultRequestsObjectiveWeights leaves an objective alone when it
    has a latency configuration and no requests configuration; otherwise
    the objective has a requests configuration afterwards whose weights
    are the weights it had, completed by the default weight of every
    resource it had no weight for: a weight that was set is never
    replaced.  The name and the latency configuration are kept, and
    applying the same defaults again changes nothing. *)
Theorem defaultRequestsObjectiveWeights_fills
  (obj : appsv1alpha1.Objective) (weights : gmap string v1beta1.Quantity) :
  let obj' := appsv1alpha1.defaultRequestsObjectiveWeights obj weights in
  (appsv1alpha1.Requests obj = None → appsv1alpha1.Latency obj ≠ None →
   obj' = obj)
  ∧ (appsv1alpha1.Requests obj ≠ None ∨ appsv1alpha1.Latency obj = None →
     appsv1alpha1.Requests obj'
     = Some {| appsv1alpha1.Weights := Some (existingWeights obj ∪ weights) |}
     ∧ (∀ k q, existingWeights obj !! k = Some q →
               existingWeights obj' !! k = Some q)
     ∧ (∀ k, existingWeights obj !! k = None →
             existingWeights obj' !! k = weights !! k))
  ∧ appsv1alpha1.Objective_Name obj' = appsv1alpha1.Objective_Name obj
  ∧ appsv1alpha1.Latency obj' = appsv1alpha1.Latency obj
  ∧ appsv1alpha1.defaultRequestsObjectiveWeights obj' weights = obj'.
Proof.
  destruct obj as [name [[[w|]]|] [l|]];
    unfold appsv1alpha1.defaultRequestsObjectiveWeights, existingWeights;
    cbn; rewrite ?fillWeights_union;
    repeat split; try done; try tauto;
    try (intros [?|?]; done);
    try (intros k q Hq; rewrite lookup_union, Hq;
         by destruct (weights !! k));
    try (intros k Hk; rewrite lookup_union, Hk;
         by destruct (weights !! k));
    try (by rewrite union_twice);
    exfalso; naive_solver.
Qed.

Lemma defaultRequestsObjectiveWeights_fills_witness :
  let obj :=
    {| appsv1alpha1.Objective_Name := "cost";
       appsv1alpha1.Requests :=
         Some {| appsv1alpha1.Weights := Some {["cpu" := quantity 1000]} |};
       appsv1alpha1.Latency := None |} in
  let obj' :=
    appsv1alpha1.defaultRequestsObjectiveWeights obj
      {["cpu" := quantity 17000; "memory" := quantity 3000]} in
  existingWeights obj' !! "cpu" = Some (quantity 1000)
  ∧ existingWeights obj' !! "memory" = Some (quantity 3000).
Proof.
  intros obj obj'.
  destruct (defaultRequestsObjectiveWeights_fills obj
              {["cpu" := quantity 17000; "memory" := quantity 3000]})
    as (_ & Hfill & _).
  destruct Hfill as (_ & Hkept & Hnew); [by left|].
  split.
  - apply Hkept. reflexivity.
  - unfold obj'. rewrite Hnew; reflexivity.
Defined.

(** X15: defaulting never gives an objective a second kind of
    configuration: after defaultRequestsObjectiveWeights or
    defaultLatencyObjective an objective that had no configuration has
    exactly one, and an objective that had some has as many as before.
    defaultLatencyObjective sets the latency type only where it was empty
    and never touches the requests configuration. *)
Theorem defaulting_keeps_one_configuration (obj : appsv1alpha1.Objective)
  (weights : gmap string v1beta1.Quantity) (latency : string) :
  let byRequests := appsv1alpha1.defaultRequestsObjectiveWeights obj weights in
  let byLatency := appsv1alpha1.defaultLatencyObjective obj latency in
  appsv1alpha1.countConfigs byRequests
  = Z.max 1 (appsv1alpha1.countConfigs obj)
  ∧ appsv1alpha1.countConfigs byLatency
    = Z.max 1 (appsv1alpha1.countConfigs obj)
  ∧ appsv1alpha1.Requests byLatency = appsv1alpha1.Requests obj
  ∧ (∀ l, appsv1alpha1.Latency obj = Some l →
          appsv1alpha1.LatencyType l ≠ "" →
          appsv1alpha1.Latency byLatency = Some l)
  ∧ (∀ l, appsv1alpha1.Latency byLatency = Some l →
          appsv1alpha1.LatencyType l = latency
          ∨ appsv1alpha1.Latency obj = Some l).
Proof.
  destruct obj as [name [r|] [[lt]|]];
    unfold appsv1alpha1.defaultRequestsObjectiveWeights,
      appsv1alpha1.defaultLatencyObjective, appsv1alpha1.countConfigs;
    cbn; repeat split; try done;
    try (intros l [= <-] Hl; cbn in Hl;
         by rewrite (proj2 (String.eqb_neq _ _) Hl));
    try (intros l; destruct (String.eqb_spec lt ""); intros [= <-];
         (by left) || (by right));
    try (intros l [= <-]; by left).
Qed.

(** ** The suffix of a derived trial name *)








(** The three shapes of a derived name: a padded number, the last path
    element as it stands, and "/" for a URL of slashes only. *)
Lemma trialName_shapes :
  server.trialName "tuning-" "https://example.invalid/trials/7" = "tuning-007"
  ∧ server.trialName "tuning-" "https://example.invalid/trials/abc/"
    = "tuning-abc"
  ∧ server.trialName "tuning-" "///" = "tuning-/".
Proof. repeat split. Qed.


(** ** Labels of an experiment on the wire *)

Lemma TrimPrefix_unprefixed (k : string) :
  unprefixed k → gostrings.TrimPrefix k "redskyops.dev/" = k.
Proof. unfold unprefixed, gostrings.TrimPrefix. by intros ->. Qed.

Lemma trimmed_unprefixed (m : gmap string string) :
  (∀ k, is_Some (m !! k) → unprefixed k) →
  map_fold (λ k v (out : gmap string string),
              <[gostrings.TrimPrefix k "redskyops.dev/" := v]> out) ∅ m
  = m.
Proof.
  apply (map_fold_weak_ind
           (λ r m, (∀ k, is_Some (m !! k) → unprefixed k) → r = m)).
  - done.
  - intros k v m' r Hk IH Hall.
    rewrite TrimPrefix_unprefixed.
    + rewrite IH; [reflexivity|]. intros k' Hk'. apply Hall.
      destruct (decide (k' = k)) as [->|Hne];
        [by rewrite lookup_insert_eq | by rewrite lookup_insert_ne].
    + apply Hall. by rewrite lookup_insert_eq.
Qed.

(** X17: FromCluster sends no label map for an experiment without labels,
    whether its label map is nil or empty, and sends the labels unchanged
    when none of the keys is in the "redskyops.dev/" name space. *)
Theorem FromCluster_labels (exp : v1beta1.Experiment)
  (n : redskyapi.ExperimentName) (out : redskyapi.Experiment)
  (b : option redskyapi.TrialAssignments) :
  server.FromCluster exp = Ok (n, out, b) →
  let labels := metav1.Labels (v1beta1.Experiment_ObjectMeta exp) in
  (labels = None ∨ labels = Some ∅ → redskyapi.Labels out = None)
  ∧ (∀ m, labels = Some m → m ≠ ∅ →
          (∀ k, is_Some (m !! k) → unprefixed k) →
          redskyapi.Labels out = Some m).
Proof.
  intros Hok labels.
  assert (Hl : redskyapi.Labels out = server.convertLabels labels).
  { unfold server.FromCluster in Hok.
    destruct (server.convertParameters _ [] []) as [[ps bl]|e];
      [|discriminate].
    destruct (length bl =? 0)%nat; [|destruct (negb _); [discriminate|]];
      by injection Hok as <- <- <-. }
  rewrite Hl. unfold server.convertLabels. split.
  - intros [->| ->]; [reflexivity|]. by rewrite map_size_empty.
  - intros m -> Hne Hall.
    assert (Hsize : (0 <? size m)%nat = true).
    { apply Nat.ltb_lt. destruct (size m) eqn:E; [|lia].
      by apply map_size_empty_iff in E. }
    rewrite Hsize. f_equal. by apply trimmed_unprefixed.
Qed.

Lemma FromCluster_labels_witness :
  let exp :=
    {| v1beta1.Experiment_ObjectMeta :=
         metav1.setLabels (Some {["team" := "perf"]})
           (metav1.setName "labelled" metav1.empty);
       v1beta1.CreationTimestamp := 0%Z;
       v1beta1.Experiment_Spec :=
         v1beta1.Experiment_Spec (boundedExperiment [("cpu", (1, 4)%Z)]) |} in
  ∃ n out b,
    server.FromCluster exp = Ok (n, out, b)
    ∧ redskyapi.Labels out = Some {["team" := "perf"]}.
Proof.
  intros exp.
  destruct (server.FromCluster exp) as [[[n out] b]|e] eqn:Hok;
    [|by vm_compute in Hok].
  exists n, out, b. split; [reflexivity|].
  destruct (FromCluster_labels exp n out b Hok) as [_ Hkeep].
  apply Hkeep; [reflexivity| |].
  - intros Hempty.
    apply (f_equal (λ m : gmap string string, m !! "team")) in Hempty.
    vm_compute in Hempty. discriminate.
  - intros k [v Hk].
    destruct (decide (k = "team")) as [->|Hne]; [reflexivity|].
    rewrite lookup_singleton_ne in Hk by done. discriminate.
Defined.

(** ** What FromClusterTrial reports *)

Lemma omap_wireValue_names `{Float64} (vs : list v1beta1.Value) :
  redskyapi.MetricName <$> omap wireValue vs
  `sublist_of` v1beta1.Value_Name <$> vs.
Proof.
  induction vs as [|v vs IH]; [constructor|].
  rewrite fmap_cons. cbn [omap list_omap]. fold (omap wireValue vs).
  unfold wireValue at 1.
  destruct (ParseFloat (v1beta1.Value_Value v)); simpl.
  - by apply sublist_skip.
  - by apply sublist_cons.
Qed.

(** X18: FromClusterTrial copies the start and completion times of the
    trial; the metric names it reports are, in order, names of the values
    of the trial, and when the trial did not fail and the text of every
    value parses, every value is reported. *)
Theorem FromClusterTrial_values `{Float64} (t : v1beta1.Trial) :
  let out := server.FromClusterTrial t in
  let values := v1beta1.Spec_Values (v1beta1.Trial_Spec t) in
  redskyapi.StartTime out = v1beta1.StartTime (v1beta1.Trial_Status t)
  ∧ redskyapi.CompletionTime out
    = v1beta1.CompletionTime (v1beta1.Trial_Status t)
  ∧ redskyapi.MetricName <$> redskyapi.Values out
    `sublist_of` v1beta1.Value_Name <$> values
  ∧ (redskyapi.Failed out = false →
     Forall (λ v, is_Some (ParseFloat (v1beta1.Value_Value v))) values →
     redskyapi.MetricName <$> redskyapi.Values out
     = v1beta1.Value_Name <$> values).
Proof.
  intros out values. subst out. unfold server.FromClusterTrial.
  destruct (foldl server.checkFailed _ _) as [[failed reason] message].
  cbn [redskyapi.StartTime redskyapi.CompletionTime redskyapi.Values
       redskyapi.Failed].
  split; [reflexivity|]. split; [reflexivity|].
  fold values. destruct failed; cbn [negb].
  - split; [apply sublist_nil_l|discriminate].
  - rewrite (foldl_appendValue values []). cbn [app].
    split; [apply omap_wireValue_names|].
    intros _ Hall. induction Hall as [|v vs [fv Hv] _ IH]; [reflexivity|].
    cbn [omap list_omap]. fold (omap wireValue vs).
    unfold wireValue at 1. rewrite Hv. cbn. by rewrite <- IH.
Qed.

(** ** Concrete instances of the further properties *)


Lemma defaulting_keeps_one_configuration_witness :
  let tail := {| appsv1alpha1.LatencyType := "p95" |} in
  appsv1alpha1.countConfigs
    (appsv1alpha1.defaultRequestsObjectiveWeights
       (objective None (Some tail)) {["cpu" := quantity 1000]}) = 1%Z
  ∧ appsv1alpha1.Latency
      (appsv1alpha1.defaultLatencyObjective (objective None (Some tail))
         "mean")
    = Some tail.
Proof.
  intros tail.
  destruct (defaulting_keeps_one_configuration (objective None (Some tail))
              {["cpu" := quantity 1000]} "mean")
    as (Hcount & _ & _ & Hkeep & _).
  split; [exact Hcount|].
  apply Hkeep; [reflexivity|discriminate].
Defined.

Lemma FromClusterTrial_values_witness :
  redskyapi.MetricName
  <$> redskyapi.Values
        (server.FromClusterTrial (H := samples.decimalFloat64)
           (finishedTrial [completeCondition] [costValue]))
  = ["cost"].
Proof.
  destruct (FromClusterTrial_values (H := samples.decimalFloat64)
              (finishedTrial [completeCondition] [costValue]))
    as (_ & _ & _ & Hall).
  apply Hall; [reflexivity|].
  repeat constructor. by eexists.
Defined.
